(** * pptx2pdf: the upload, convert and proxy pipeline

    A shallow embedding of [app.py] and [libreoffice.py].  The handlers are
    written in a state-and-exception monad over a [World] made of the file
    system, the queue of background tasks and the trace of observable
    effects; whatever the process does not control (environment variables,
    the executable search path, the random source, the conversion engine,
    the parsing service) is gathered in an [Env] record of oracles.

    Calls to [logger] are left out, together with the [stat] probe of
    [convert_and_parse] whose result only feeds a log line. *)

From Stdlib Require Import ZArith NArith String Ascii DecimalString List Lia.
From stdpp Require Import gmap strings list.
Import ListNotations.

Local Open Scope string_scope.
Local Open Scope list_scope.

(** ** Python strings *)

Module Str.

(** [c.lower()] on one character: only [A]-[Z] move. *)
Definition lower_ascii (c : ascii) : ascii :=
  let n := nat_of_ascii c in
  if (65 <=? n)%nat && (n <=? 90)%nat then ascii_of_nat (n + 32) else c.

(** [s.lower()] for a string in ASCII. *)
Fixpoint lower (s : string) : string :=
  match s with
  | EmptyString => EmptyString
  | String c t => String (lower_ascii c) (lower t)
  end.

(** [s[:n]] *)
Fixpoint take (n : nat) (s : string) : string :=
  match n, s with
  | S n', String c t => String c (take n' t)
  | _, _ => EmptyString
  end.

(** [s[n:]] *)
Fixpoint drop (n : nat) (s : string) : string :=
  match n, s with
  | S n', String _ t => drop n' t
  | _, _ => s
  end.

(** [s.startswith(p)] *)
Definition startswith (s p : string) : bool := String.prefix p s.

(** [s.rfind(c)] for a one-character needle; [None] stands for [-1]. *)
Fixpoint rfind (c : ascii) (s : string) : option nat :=
  match s with
  | EmptyString => None
  | String a t =>
      match rfind c t with
      | Some i => Some (S i)
      | None => if Ascii.eqb a c then Some 0%nat else None
      end
  end.

(** [s.split(sep)] for a one-character separator. *)
Fixpoint split (sep : ascii) (s : string) : list string :=
  match s with
  | EmptyString => [EmptyString]
  | String a t =>
      if Ascii.eqb a sep then EmptyString :: split sep t
      else match split sep t with
           | h :: r => String a h :: r
           | [] => [String a EmptyString]
           end
  end.

(** [sep.join(l)] *)
Fixpoint join (sep : string) (l : list string) : string :=
  match l with
  | [] => EmptyString
  | [x] => x
  | x :: r => x +:+ sep +:+ join sep r
  end.

(** [c in s] *)
Fixpoint mem (c : ascii) (s : string) : bool :=
  match s with
  | EmptyString => false
  | String a t => Ascii.eqb a c || mem c t
  end.

(** Truth value of a string: empty is false. *)
Definition truthy (s : string) : bool :=
  match s with EmptyString => false | _ => true end.

(** [str(n)] for an integer. *)
Definition of_Z (n : Z) : string := NilZero.string_of_int (Z.to_int n).

(** [str(b).lower()] for a boolean: [True] and [False] are in ASCII. *)
Definition of_bool_lower (b : bool) : string :=
  lower (if b then "True" else "False").

Definition hex_digit (d : N) : ascii :=
  match d with
  | 0%N => "0" | 1%N => "1" | 2%N => "2" | 3%N => "3"
  | 4%N => "4" | 5%N => "5" | 6%N => "6" | 7%N => "7"
  | 8%N => "8" | 9%N => "9" | 10%N => "a" | 11%N => "b"
  | 12%N => "c" | 13%N => "d" | 14%N => "e" | _ => "f"
  end%char.

(** ['%0kx' % n], for [n] below [16^k]. *)
Fixpoint hex_fixed (k : nat) (n : N) : string :=
  match k with
  | O => EmptyString
  | S k' => hex_fixed k' (n / 16) +:+ String (hex_digit (n mod 16)) EmptyString
  end.

(** A Python [str] is held as its UTF-8 bytes.  A byte [10xxxxxx] continues
    the character the bytes before it began. *)
Definition is_continuation (c : ascii) : bool :=
  let n := nat_of_ascii c in (128 <=? n)%nat && (n <? 192)%nat.


(** [s[:n]] on characters: the bytes of the first [n] characters. *)
Fixpoint take_chars (n : nat) (s : string) : string :=
  match s with
  | EmptyString => EmptyString
  | String c t =>
      if is_continuation c then String c (take_chars n t)
      else match n with
           | O => EmptyString
           | S n' => String c (take_chars n' t)
           end
  end.

(** Every character of [s] is in ASCII. *)
Fixpoint is_ascii (s : string) : bool :=
  match s with
  | EmptyString => true
  | String c t => (nat_of_ascii c <? 128)%nat && is_ascii t
  end.

(** [UUID(int=n).hex]: 32 hexadecimal digits of a 128-bit value. *)
Definition uuid_hex (n : N) : string := hex_fixed 32 (n mod 2 ^ 128).

End Str.

Arguments Str.hex_fixed : simpl never.
Arguments Str.uuid_hex : simpl never.

(** [a or b] on optional strings: [None] and the empty string are false. *)
Definition py_or (a b : option string) : option string :=
  match a with
  | Some s => if Str.truthy s then a else b
  | None => b
  end.

(** [a or b] where [b] is a string. *)
Definition py_or_else (a : option string) (b : string) : string :=
  match a with
  | Some s => if Str.truthy s then s else b
  | None => b
  end.

Definition py_truthy (a : option string) : bool :=
  match a with
  | Some s => Str.truthy s
  | None => false
  end.

(** ** pathlib

    A POSIX pure path is its root ([""], ["/"] or ["//"]) and the list of its
    components; parsing drops empty and ["."] components.  [suffix] and
    [stem] follow the [rfind] definition of CPython 3.8 to 3.13. *)

Record Path := mkPath { root : string; parts : list string }.

Module PathLib.

Definition keep_part (s : string) : bool :=
  negb (String.eqb s "" || String.eqb s ".").

(** [posixpath.splitroot]: one leading slash, or three and more, make the
    root ["/"]; exactly two make it ["//"]. *)
Definition splitroot (s : string) : string * string :=
  if negb (String.eqb (Str.take 1 s) "/") then ("", s)
  else if negb (String.eqb (Str.take 1 (Str.drop 1 s)) "/")
          || String.eqb (Str.take 1 (Str.drop 2 s)) "/"
       then ("/", Str.drop 1 s)
       else ("//", Str.drop 2 s).

(** [Path(s)] *)
Definition of_str (s : string) : Path :=
  let '(r, rest) := splitroot s in
  mkPath r (List.filter keep_part (Str.split "/" rest)).

(** [str(p)] *)
Definition str (p : Path) : string :=
  match root p, parts p with
  | EmptyString, [] => "."
  | r, l => r +:+ Str.join "/" l
  end.

(** [p / s] *)
Definition truediv (p : Path) (s : string) : Path :=
  let q := of_str s in
  if Str.truthy (root q) then q
  else mkPath (root p) (parts p ++ parts q).

(** [p.name] *)
Definition name (p : Path) : string := List.last (parts p) "".

(** [p.suffix] *)
Definition suffix (p : Path) : string :=
  let n := name p in
  match Str.rfind "." n with
  | Some i =>
      if (0 <? i)%nat && (i <? String.length n - 1)%nat
      then Str.drop i n else ""
  | None => ""
  end.

(** [p.stem] *)
Definition stem (p : Path) : string :=
  let n := name p in
  match Str.rfind "." n with
  | Some i =>
      if (0 <? i)%nat && (i <? String.length n - 1)%nat
      then Str.take i n else n
  | None => n
  end.

End PathLib.

Notation "p // s" := (PathLib.truediv p s) (at level 40, left associativity).

(** ** Exceptions, the world and the handler monad *)

(** The exceptions the service meets; all of them are subclasses of
    Python's [Exception]. *)
Inductive exn :=
| HTTPException (status_code : Z) (detail : string)
| FileNotFoundError (msg : string)
| OSError (msg : string)
| CalledProcessError (msg : string)
| ValueError (msg : string)
| RuntimeError (msg : string).

(** [str(exc)] *)
Definition exn_str (e : exn) : string :=
  match e with
  | HTTPException c d => Str.of_Z c +:+ ": " +:+ d
  | FileNotFoundError m | OSError m | CalledProcessError m | ValueError m
  | RuntimeError m => m
  end.

Inductive node :=
| Dir
| File (content : string).

(** A multipart post of the HTTP client. *)
Record PostRequest := mkPost {
  rq_url : string;
  rq_params : option (gmap string string);
  rq_data : list (string * string);
  rq_files : list (string * (string * string * string));
  rq_headers : list (string * string)
}.

Record httpx_Response := mkResp { status_code : Z; text : string }.

#[local] Set Warnings "-register-all".
Inductive json :=
| JNull
| JBool (b : bool)
| JNumber (literal : string)
| JString (s : string)
| JArray (items : list json)
| JObject (members : list (string * json)).
#[local] Set Warnings "register-all".

Inductive event :=
| EvMkdir (p : string)
| EvOpenWrite (p : string)
| EvUnlink (p : string)
| EvSpawn (command : list string)
| EvPost (rq : PostRequest)
| EvSent.

Record World := mkWorld {
  fs : gmap string node;
  background : list (list Path);
  uuid_ctr : nat;
  trace : list event
}.

(** What the process reads from its surroundings.  Two fields stand for
    library code that works on data this file does not hold: [render_json] is
    the rendering of the body of a JSON response, which the framework does in
    the constructor ([json.dumps] with [allow_nan=False], then the UTF-8
    encoding) and which raises on a non-finite number or a lone surrogate;
    [unicode_lower] is [str.lower()] on a string that is not all ASCII, the
    work of the Unicode case tables. *)
Record Env := mkEnv {
  BASE_DIR : Path;
  environ : gmap string string;
  which : string -> option string;
  urandom : nat -> N;
  mkdir_err : string -> option exn;
  open_wb_err : string -> option exn;
  copy_err : string -> option exn;
  unlink_err : string -> option exn;
  run_process : list string -> gmap string node -> option exn * gmap string node;
  http_post : list event -> PostRequest -> exn + httpx_Response;
  json_loads : string -> option json;
  render_json : json -> option exn;
  unicode_lower : string -> string
}.

Definition M (A : Type) : Type := World -> (exn + A) * World.

Definition ret {A} (a : A) : M A := fun w => (inr a, w).

Definition raise {A} (e : exn) : M A := fun w => (inl e, w).

Definition bind {A B} (c : M A) (k : A -> M B) : M B :=
  fun w =>
    match c w with
    | (inr a, w') => k a w'
    | (inl e, w') => (inl e, w')
    end.

(** [try: body except Exception as e: handler(e)] *)
Definition try_except {A} (body : M A) (handler : exn -> M A) : M A :=
  fun w =>
    match body w with
    | (inr a, w') => (inr a, w')
    | (inl e, w') => handler e w'
    end.

Notation "x <~ c ;; k" := (bind c (fun x => k))
  (at level 100, c at next level, right associativity).
Notation "c ;;; k" := (bind c (fun _ => k))
  (at level 100, right associativity).

Definition log_event (ev : event) : M unit :=
  fun w => (inr tt, mkWorld (fs w) (background w) (uuid_ctr w) (trace w ++ [ev])).

(** [for x in xs: body(x)] *)
Fixpoint for_each {A} (xs : list A) (body : A -> M unit) : M unit :=
  match xs with
  | [] => ret tt
  | x :: r => body x ;;; for_each r body
  end.

Definition with_fs (w : World) (f : gmap string node) (evs : list event) : World :=
  mkWorld f (background w) (uuid_ctr w) (trace w ++ evs).

(** An upload: [file.filename] and the bytes of the stream [file.file]. *)
Record UploadFile := mkUpload { filename : option string; file_bytes : string }.

(** The responses the three endpoints build. *)
Inductive response :=
| FileResponse (path media_type filename : string)
| Response (content media_type : string)
| JSONResponse (status_code : Z) (content : json).

(** The tuning parameters of [convert_and_parse], with the request's raw
    query items ([request.query_params.multi_items()]). *)
Record ParseArgs := mkParseArgs {
  parser_url : option string;
  x_parser_url : option string;
  return_middle_json : bool;
  return_model_output : bool;
  return_md : bool;
  return_images : bool;
  end_page_id : Z;
  parse_method : string;
  start_page_id : Z;
  lang_list : string;
  output_dir : string;
  server_url : string;
  return_content_list : bool;
  backend : string;
  table_enable : bool;
  formula_enable : bool;
  query_items : list (string * string)
}.

Section Service.

Context (E : Env).

(** *** Primitives of the standard library *)

(** [os.getenv(k)] *)
Definition getenv (k : string) : option string := environ E !! k.

(** [p.exists()], taken as total: a path is on disk or it is not. *)
Definition path_exists (p : Path) : M bool :=
  fun w =>
    match fs w !! PathLib.str p with
    | Some _ => (inr true, w)
    | None => (inr false, w)
    end.

(** [p.unlink()] *)
Definition path_unlink (p : Path) : M unit :=
  fun w =>
    let k := PathLib.str p in
    match fs w !! k with
    | None => (inl (FileNotFoundError k), w)
    | Some Dir => (inl (OSError ("Is a directory: " +:+ k)), w)
    | Some (File _) =>
        match unlink_err E k with
        | Some e => (inl e, w)
        | None => (inr tt, with_fs w (delete k (fs w)) [EvUnlink k])
        end
    end.

(** [p.mkdir(parents=True, exist_ok=True)] *)
Definition path_mkdir (p : Path) : M unit :=
  fun w =>
    let k := PathLib.str p in
    match fs w !! k with
    | Some Dir => (inr tt, w)
    | Some (File _) => (inl (OSError ("File exists: " +:+ k)), w)
    | None =>
        match mkdir_err E k with
        | Some e => (inl e, w)
        | None => (inr tt, with_fs w (<[k := Dir]> (fs w)) [EvMkdir k])
        end
    end.

(** [with p.open("wb") as out_f: shutil.copyfileobj(src, out_f)]: the file
    is created (or truncated) by [open]; a failing copy leaves it there. *)
Definition write_upload (p : Path) (content : string) : M unit :=
  fun w =>
    let k := PathLib.str p in
    match fs w !! k with
    | Some Dir => (inl (OSError ("Is a directory: " +:+ k)), w)
    | _ =>
        match open_wb_err E k with
        | Some e => (inl e, w)
        | None =>
            let w1 := with_fs w (<[k := File ""]> (fs w)) [EvOpenWrite k] in
            match copy_err E k with
            | Some e => (inl e, w1)
            | None => (inr tt, with_fs w1 (<[k := File content]> (fs w1)) [])
            end
        end
    end.

(** [p.read_bytes()], and the check [p.open("rb")] makes. *)
Definition path_read_bytes (p : Path) : M string :=
  fun w =>
    let k := PathLib.str p in
    match fs w !! k with
    | Some (File c) => (inr c, w)
    | Some Dir => (inl (OSError ("Is a directory: " +:+ k)), w)
    | None => (inl (FileNotFoundError k), w)
    end.

Definition path_open_rb (p : Path) : M unit :=
  path_read_bytes p ;;; ret tt.

(** [uuid.uuid4().hex] *)
Definition uuid4_hex : M string :=
  fun w =>
    (inr (Str.uuid_hex (urandom E (uuid_ctr w))),
     mkWorld (fs w) (background w) (S (uuid_ctr w)) (trace w)).

(** [subprocess.run(command, check=True, ...)] *)
Definition subprocess_run (command : list string) : M unit :=
  fun w =>
    let '(r, f) := run_process E command (fs w) in
    let w' := with_fs w f [EvSpawn command] in
    match r with
    | Some e => (inl e, w')
    | None => (inr tt, w')
    end.

(** [await client.post(...)] *)
Definition client_post (rq : PostRequest) : M httpx_Response :=
  fun w =>
    let w' := with_fs w (fs w) [EvPost rq] in
    match http_post E (trace w) rq with
    | inl e => (inl e, w')
    | inr r => (inr r, w')
    end.

(** [background_tasks.add_task(_cleanup_paths, *paths)] *)
Definition add_task (paths : list Path) : M unit :=
  fun w =>
    (inr tt, mkWorld (fs w) (background w ++ [paths]) (uuid_ctr w) (trace w)).

(** *** libreoffice.py *)

(** The loop [for name in names: found = shutil.which(name); if found: return]. *)
Fixpoint which_first (names : list string) : option string :=
  match names with
  | [] => None
  | name :: rest =>
      let found := which E name in
      if py_truthy found then found else which_first rest
  end.

Definition lo_not_found : string :=
  "LibreOffice executable not found. Install LibreOffice or set LIBREOFFICE_BIN to the full path.".

Definition mac_default : Path :=
  PathLib.of_str "/Applications/LibreOffice.app/Contents/MacOS/soffice".

Definition mac_alt : Path :=
  PathLib.of_str "/Applications/LibreOffice.app/Contents/MacOS/soffice-bin".

Definition resolve_libreoffice_path : M Path :=
  let env_override := py_or (getenv "LIBREOFFICE_BIN") (getenv "LIBREOFFICE_PATH") in
  let after_env : M Path :=
    match which_first ["libreoffice"; "soffice"] with
    | Some found => ret (PathLib.of_str found)
    | None =>
        e1 <~ path_exists mac_default ;;
        if e1 then ret mac_default
        else
          e2 <~ path_exists mac_alt ;;
          if e2 then ret mac_alt
          else raise (FileNotFoundError lo_not_found)
    end in
  match env_override with
  | Some s =>
      if Str.truthy s then
        let candidate := PathLib.of_str s in
        e <~ path_exists candidate ;;
        if e then ret candidate else after_env
      else after_env
  | None => after_env
  end.

Definition convert_pptx_to_pdf (input_path output_dir : Path) : M Path :=
  e <~ path_exists output_dir ;;
  (if negb e then path_mkdir output_dir else ret tt) ;;;
  libreoffice_path <~ resolve_libreoffice_path ;;
  let command :=
    [PathLib.str libreoffice_path;
     "--headless"; "--nologo"; "--nofirststartwizard"; "--nolockcheck";
     "--norestore"; "--convert-to"; "pdf";
     "--outdir"; PathLib.str output_dir;
     PathLib.str input_path] in
  subprocess_run command ;;;
  let pdf_path := output_dir // (PathLib.stem input_path +:+ ".pdf") in
  e' <~ path_exists pdf_path ;;
  if negb e'
  then raise (FileNotFoundError ("Expected PDF not found: " +:+ PathLib.str pdf_path))
  else ret pdf_path.

(** The command line [convert_pptx_to_pdf] builds. *)
Definition convert_command (libreoffice_path output_dir input_path : Path)
    : list string :=
  [PathLib.str libreoffice_path;
   "--headless"; "--nologo"; "--nofirststartwizard"; "--nolockcheck";
   "--norestore"; "--convert-to"; "pdf";
   "--outdir"; PathLib.str output_dir;
   PathLib.str input_path].

(** [convert_pptx_to_pdf] up to the return of [subprocess.run] (lines 52
    to 72), named to speak of the state the subprocess leaves. *)
Definition run_engine (input_path output_dir : Path) : M unit :=
  e <~ path_exists output_dir ;;
  (if negb e then path_mkdir output_dir else ret tt) ;;;
  libreoffice_path <~ resolve_libreoffice_path ;;
  subprocess_run (convert_command libreoffice_path output_dir input_path).

(** [<input stem>.pdf] under [output_dir]. *)
Definition expected_pdf (input_path output_dir : Path) : Path :=
  output_dir // (PathLib.stem input_path +:+ ".pdf").

(** The rest of [convert_pptx_to_pdf], once the subprocess has returned
    (lines 74 to 79). *)
Definition check_output (input_path output_dir : Path) : M Path :=
  e' <~ path_exists (expected_pdf input_path output_dir) ;;
  if negb e'
  then raise (FileNotFoundError
                ("Expected PDF not found: "
                 +:+ PathLib.str (expected_pdf input_path output_dir)))
  else ret (expected_pdf input_path output_dir).

End Service.

(** ** app.py *)

Definition dquote : string := String (ascii_of_nat 34) EmptyString.

Definition crlf : string :=
  String (ascii_of_nat 13) (String (ascii_of_nat 10) EmptyString).

Definition default_parser_url : string := "http://10.81.194.110:31007/file_parse".

(** [ext in {".ppt", ".pptx"}] *)
Definition allowed_ext (ext : string) : bool :=
  bool_decide (ext ∈ ({[ ".ppt"; ".pptx" ]} : gset string)).

(** The [body] that [_build_multipart_file] assembles, for a given
    [boundary]: one file part between the opening and closing delimiters. *)
Definition envelope (boundary field_name filename content content_type : string)
    : string :=
  let headers :=
    "--" +:+ boundary +:+ crlf
    +:+ "Content-Disposition: form-data; name=" +:+ dquote +:+ field_name +:+ dquote
    +:+ "; filename=" +:+ dquote +:+ filename +:+ dquote +:+ crlf
    +:+ "Content-Type: " +:+ content_type +:+ crlf +:+ crlf in
  let footer := crlf +:+ "--" +:+ boundary +:+ "--" +:+ crlf in
  let body := headers +:+ content +:+ footer in
  body.

Section App.

Context (E : Env).

Definition DATA_DIR : Path := BASE_DIR E // "data".
Definition UPLOAD_DIR : Path := DATA_DIR // "uploads".
Definition OUTPUT_DIR : Path := DATA_DIR // "outputs".

(** [s.lower()]: by the code of the letter in ASCII, by the Unicode tables
    otherwise. *)
Definition py_lower (s : string) : string :=
  if Str.is_ascii s then Str.lower s else unicode_lower E s.

(** [JSONResponse(status_code=..., content=...)]: the constructor renders
    the body, and raises what the rendering raises. *)
Definition new_JSONResponse (status_code : Z) (content : json) : M response :=
  match render_json E content with
  | Some e => raise e
  | None => ret (JSONResponse status_code content)
  end.

Definition _safe_ext (filename : string) : string :=
  py_lower (PathLib.suffix (PathLib.of_str filename)).

Definition _cleanup_paths (paths : list Path) : M unit :=
  for_each paths (fun p =>
    try_except
      (e <~ path_exists p ;;
       if e then path_unlink E p else ret tt)
      (fun _ => ret tt)).

Definition _build_multipart_file
    (field_name filename content content_type : string) : M (string * string) :=
  hex <~ uuid4_hex E ;;
  let boundary := "----pptx2pdf-" +:+ hex in
  ret (envelope boundary field_name filename content content_type,
       "multipart/form-data; boundary=" +:+ boundary).

Definition _effective_parser_url : string :=
  let env_url := py_or (getenv E "PARSER_URL") (getenv E "PARSE_URL") in
  py_or_else env_url default_parser_url.

Definition parser_query_prefix : string := "parser_query_".

(** The loop of [_parser_query_params] over [multi_items()], [params]
    being the dictionary built so far. *)
Fixpoint _parser_query_params_from
    (items : list (string * string)) (params : gmap string string)
    : exn + gmap string string :=
  match items with
  | [] => inr params
  | (key, value) :: rest =>
      if negb (Str.startswith key parser_query_prefix)
      then _parser_query_params_from rest params
      else
        let trimmed := Str.drop (String.length parser_query_prefix) key in
        if negb (Str.truthy trimmed)
        then inl (HTTPException 400 "parser_query_ prefix requires a field name")
        else _parser_query_params_from rest (<[trimmed := value]> params)
  end.

Definition _parser_query_params (items : list (string * string))
    : M (gmap string string) :=
  match _parser_query_params_from items ∅ with
  | inl e => raise e
  | inr params => ret params
  end.

Definition convert (file : UploadFile) : M response :=
  if negb (py_truthy (filename file))
  then raise (HTTPException 400 "No file uploaded")
  else
    let fname := default "" (filename file) in
    let ext := _safe_ext fname in
    if negb (allowed_ext ext)
    then raise (HTTPException 400 "Only .ppt or .pptx files are supported")
    else
      unique_stem <~ uuid4_hex E ;;
      let input_path := UPLOAD_DIR // (unique_stem +:+ ext) in
      try_except
        (write_upload E input_path (file_bytes file))
        (fun exc => raise (HTTPException 500 ("Failed to save upload: " +:+ exn_str exc))) ;;;
      pdf_path <~ try_except
        (convert_pptx_to_pdf E input_path OUTPUT_DIR)
        (fun exc =>
           match exc with
           | FileNotFoundError _ =>
               _cleanup_paths [input_path] ;;;
               raise (HTTPException 500 (exn_str exc))
           | _ =>
               _cleanup_paths [input_path] ;;;
               raise (HTTPException 500 ("Conversion failed: " +:+ exn_str exc))
           end) ;;
      let download_name := PathLib.stem (PathLib.of_str fname) +:+ ".pdf" in
      add_task [input_path; pdf_path] ;;;
      ret (FileResponse (PathLib.str pdf_path) "application/pdf" download_name).

Definition convert_multipart (file : UploadFile) : M response :=
  if negb (py_truthy (filename file))
  then raise (HTTPException 400 "No file uploaded")
  else
    let fname := default "" (filename file) in
    let ext := _safe_ext fname in
    if negb (allowed_ext ext)
    then raise (HTTPException 400 "Only .ppt or .pptx files are supported")
    else
      unique_stem <~ uuid4_hex E ;;
      let input_path := UPLOAD_DIR // (unique_stem +:+ ext) in
      try_except
        (write_upload E input_path (file_bytes file))
        (fun exc => raise (HTTPException 500 ("Failed to save upload: " +:+ exn_str exc))) ;;;
      converted <~ try_except
        (pdf_path <~ convert_pptx_to_pdf E input_path OUTPUT_DIR ;;
         pdf_bytes <~ path_read_bytes pdf_path ;;
         ret (pdf_path, pdf_bytes))
        (fun exc =>
           _cleanup_paths [input_path] ;;;
           raise (HTTPException 500 ("Conversion failed: " +:+ exn_str exc))) ;;
      let '(pdf_path, pdf_bytes) := converted in
      let download_name := PathLib.stem (PathLib.of_str fname) +:+ ".pdf" in
      built <~ _build_multipart_file "file" download_name pdf_bytes "application/pdf" ;;
      let '(body, content_type_header) := built in
      add_task [input_path; pdf_path] ;;;
      ret (Response body content_type_header).

Definition _resolve_parser_url (query_override header_override : option string)
    : M string :=
  let url :=
    py_or_else (py_or query_override header_override) _effective_parser_url in
  if negb (Str.startswith url "http://" || Str.startswith url "https://")
  then raise (HTTPException 400 "parser_url must start with http:// or https://")
  else ret url.

(** The body of [async with httpx.AsyncClient(...) as client] in
    [convert_and_parse] (lines 301 to 330): the post with the field name
    [files] and the fallback with [file].  It yields the response that the
    variable [resp] holds when the block is left. *)
Definition post_for_parsing
    (pdf_path : Path) (download_name target_url : string)
    (params : option (gmap string string)) (form_data : list (string * string))
    : M httpx_Response :=
  let headers := [("accept", "application/json")] in
  path_open_rb pdf_path ;;;
  let files1 := [("files", (download_name, PathLib.str pdf_path, "application/pdf"))] in
  resp <~ client_post E (mkPost target_url params form_data files1 headers) ;;
  if (400 <=? status_code resp)%Z
  then
    path_open_rb pdf_path ;;;
    let files2 := [("file", (download_name, PathLib.str pdf_path, "application/pdf"))] in
    resp2 <~ client_post E (mkPost target_url params form_data files2 headers) ;;
    if (200 <=? status_code resp2)%Z && (status_code resp2 <? 300)%Z
    then ret resp2
    else ret resp
  else ret resp.

(** The dictionary [form_data] of [convert_and_parse] (lines 277 to 292). *)
Definition form_fields (a : ParseArgs) : list (string * string) :=
  [("return_middle_json", Str.of_bool_lower (return_middle_json a));
   ("return_model_output", Str.of_bool_lower (return_model_output a));
   ("return_md", Str.of_bool_lower (return_md a));
   ("return_images", Str.of_bool_lower (return_images a));
   ("end_page_id", Str.of_Z (end_page_id a));
   ("parse_method", parse_method a);
   ("start_page_id", Str.of_Z (start_page_id a));
   ("lang_list", lang_list a);
   ("output_dir", output_dir a);
   ("server_url", server_url a);
   ("return_content_list", Str.of_bool_lower (return_content_list a));
   ("backend", backend a);
   ("table_enable", Str.of_bool_lower (table_enable a));
   ("formula_enable", Str.of_bool_lower (formula_enable a))].

(** [parser_query_params or None]: an empty dictionary is false. *)
Definition or_none (d : gmap string string) : option (gmap string string) :=
  if decide (d = ∅) then None else Some d.

(** [convert_and_parse] from [download_name = ...] to its end (lines 265
    to 353), once the upload is stored at [input_path] and converted to
    [pdf_path]; [fname] is [file.filename]. *)
Definition proxy_step
    (fname : string) (input_path pdf_path : Path) (a : ParseArgs) : M response :=
  let download_name := PathLib.stem (PathLib.of_str fname) +:+ ".pdf" in
  target_url <~ _resolve_parser_url (parser_url a) (x_parser_url a) ;;
  let form_data := form_fields a in
  parser_query_params <~ _parser_query_params (query_items a) ;;
  let params := or_none parser_query_params in
  try_except
    (resp <~ post_for_parsing pdf_path download_name target_url params form_data ;;
     payload <~ match json_loads E (text resp) with
                | Some payload => ret payload
                | None =>
                    let text := Str.take_chars 1000 (text resp) in
                    raise (HTTPException 502
                             ("Downstream returned non-JSON (status "
                              +:+ Str.of_Z (status_code resp)
                              +:+ "). Snippet: " +:+ text))
                end ;;
     add_task [input_path; pdf_path] ;;;
     new_JSONResponse (status_code resp) payload)
    (fun exc =>
       match exc with
       | HTTPException _ _ =>
           _cleanup_paths [input_path; pdf_path] ;;;
           raise exc
       | _ =>
           _cleanup_paths [input_path; pdf_path] ;;;
           raise (HTTPException 502 ("Failed to call parser: " +:+ exn_str exc))
       end).

Definition convert_and_parse (file : UploadFile) (a : ParseArgs) : M response :=
  if negb (py_truthy (filename file))
  then raise (HTTPException 400 "No file uploaded")
  else
    let fname := default "" (filename file) in
    let ext := _safe_ext fname in
    if negb (allowed_ext ext)
    then raise (HTTPException 400 "Only .ppt or .pptx files are supported")
    else
      unique_stem <~ uuid4_hex E ;;
      let input_path := UPLOAD_DIR // (unique_stem +:+ ext) in
      try_except
        (write_upload E input_path (file_bytes file))
        (fun exc => raise (HTTPException 500 ("Failed to save upload: " +:+ exn_str exc))) ;;;
      pdf_path <~ try_except
        (convert_pptx_to_pdf E input_path OUTPUT_DIR)
        (fun exc =>
           _cleanup_paths [input_path] ;;;
           raise (HTTPException 500 ("Conversion failed: " +:+ exn_str exc))) ;;
      proxy_step fname input_path pdf_path a.

(** *** The request boundary

    The framework sends what the handler produced, the response or the
    error, and then runs the queued background tasks of a response. *)
Definition run_background : M unit :=
  fun w =>
    for_each (background w) _cleanup_paths
      (mkWorld (fs w) [] (uuid_ctr w) (trace w)).

Definition serve (handler : M response) : M response :=
  fun w =>
    match handler w with
    | (inr r, w1) =>
        match (log_event EvSent ;;; run_background) w1 with
        | (_, w2) => (inr r, w2)
        end
    | (inl e, w1) =>
        match log_event EvSent w1 with
        | (_, w2) => (inl e, w2)
        end
    end.

End App.

(** ** A sample deployment, for the worked examples *)

Module Sample.

(** The conversion engine: writes [<outdir>/<stem>.pdf] for the input it is
    given, as LibreOffice does. *)
Definition engine (command : list string) (f : gmap string node)
    : option exn * gmap string node :=
  match command !! 9%nat, command !! 10%nat with
  | Some outdir, Some input =>
      let out :=
        PathLib.of_str outdir // (PathLib.stem (PathLib.of_str input) +:+ ".pdf") in
      (None, <[PathLib.str out := File "%PDF-1.4"]> f)
  | _, _ => (Some (CalledProcessError "bad command line"), f)
  end.

(** An engine that exits with status 0 and writes nothing. *)
Definition silent_engine (command : list string) (f : gmap string node)
    : option exn * gmap string node := (None, f).

(** A payload holds one of the numbers [json.dumps] refuses under
    [allow_nan=False]. *)
Fixpoint non_finite (j : json) : bool :=
  match j with
  | JNumber lit =>
      String.eqb lit "NaN" || String.eqb lit "Infinity" || String.eqb lit "-Infinity"
  | JArray items => existsb non_finite items
  | JObject members => existsb (fun m => non_finite (snd m)) members
  | _ => false
  end.

Definition render (j : json) : option exn :=
  if non_finite j
  then Some (ValueError "Out of range float values are not JSON compliant")
  else None.

(** Lower-casing outside ASCII, for the letters of Latin-1: the two bytes
    [C3 80] to [C3 9E], the sign [C3 97] apart, move by [20]; the examples
    hold no other character. *)
Fixpoint latin1_lower (s : string) : string :=
  match s with
  | EmptyString => EmptyString
  | String c t =>
      match t with
      | String d u =>
          let n := nat_of_ascii d in
          if (nat_of_ascii c =? 195)%nat && (128 <=? n)%nat && (n <=? 158)%nat
             && negb (n =? 151)%nat
          then String c (String (ascii_of_nat (n + 32)) (latin1_lower u))
          else String (Str.lower_ascii c) (latin1_lower t)
      | EmptyString => String (Str.lower_ascii c) EmptyString
      end
  end.

Definition loads (s : string) : option json :=
  if String.eqb s "{}" then Some (JObject [])
  else if String.eqb s "null" then Some JNull
  else if String.eqb s "true" then Some (JBool true)
  else None.

(** A parsing service that rejects the field name [files] with a 400 and
    accepts [file] with a 200. *)
Definition picky_parser (_ : list event) (rq : PostRequest)
    : exn + httpx_Response :=
  match rq_files rq with
  | [(field, _)] =>
      if String.eqb field "file" then inr (mkResp 200 "{}")
      else inr (mkResp 400 "Bad Request")
  | _ => inr (mkResp 422 "null")
  end.

(** A parsing service that answers every post with plain text. *)
Definition broken_parser (_ : list event) (_ : PostRequest)
    : exn + httpx_Response := inr (mkResp 500 "Internal Error").

Definition env_with
    (vars : gmap string string)
    (eng : list string -> gmap string node -> option exn * gmap string node)
    (post : list event -> PostRequest -> exn + httpx_Response) : Env :=
  {| BASE_DIR := PathLib.of_str "/srv/app";
     environ := vars;
     which := fun name =>
       if String.eqb name "soffice" then Some "/usr/bin/soffice" else None;
     urandom := fun n => (N.of_nat n + 3735928559)%N;
     mkdir_err := fun _ => None;
     open_wb_err := fun _ => None;
     copy_err := fun _ => None;
     unlink_err := fun _ => None;
     run_process := eng;
     http_post := post;
     json_loads := loads;
     render_json := render;
     unicode_lower := latin1_lower |}.

Definition env0 : Env := env_with ∅ engine picky_parser.

(** The same deployment with an engine that writes nothing, and with a
    parsing service that answers in plain text. *)
Definition env_silent : Env := env_with ∅ silent_engine picky_parser.

Definition env_broken : Env := env_with ∅ engine broken_parser.

(** A deployment whose disk fills up while the upload is copied. *)
Definition env_disk_full : Env :=
  {| BASE_DIR := BASE_DIR env0;
     environ := environ env0;
     which := which env0;
     urandom := urandom env0;
     mkdir_err := mkdir_err env0;
     open_wb_err := open_wb_err env0;
     copy_err := fun _ => Some (OSError "No space left on device");
     unlink_err := unlink_err env0;
     run_process := run_process env0;
     http_post := http_post env0;
     json_loads := json_loads env0;
     render_json := render_json env0;
     unicode_lower := unicode_lower env0 |}.

Definition world0 : World :=
  {| fs := {[ "/srv/app/data/uploads" := Dir; "/srv/app/data/outputs" := Dir ]};
     background := [];
     uuid_ctr := 0;
     trace := [] |}.

Definition stored_upload : Path :=
  PathLib.of_str "/srv/app/data/uploads/00ff.pptx".

Definition stored_pdf : Path :=
  PathLib.of_str "/srv/app/data/outputs/00ff.pdf".

(** A world in which an upload is stored and converted. *)
Definition world1 : World :=
  {| fs := {[ "/srv/app/data/uploads" := Dir; "/srv/app/data/outputs" := Dir;
              "/srv/app/data/uploads/00ff.pptx" := File "PK-slides";
              "/srv/app/data/outputs/00ff.pdf" := File "%PDF-1.4" ]};
     background := [];
     uuid_ctr := 1;
     trace := [] |}.

Definition deck : UploadFile := mkUpload (Some "Quarterly Review.PPTX") "PK-slides".

Definition args0 : ParseArgs :=
  {| parser_url := None; x_parser_url := None;
     return_middle_json := false; return_model_output := false;
     return_md := true; return_images := false;
     end_page_id := 99999; parse_method := "auto"; start_page_id := 0;
     lang_list := "ch"; output_dir := "./output"; server_url := "string";
     return_content_list := false; backend := "pipeline";
     table_enable := true; formula_enable := true;
     query_items := [] |}.

(** [a] with other raw query items, and [a] with another [parser_url]. *)
Definition with_query_items (items : list (string * string)) (a : ParseArgs)
    : ParseArgs :=
  {| parser_url := parser_url a; x_parser_url := x_parser_url a;
     return_middle_json := return_middle_json a;
     return_model_output := return_model_output a;
     return_md := return_md a; return_images := return_images a;
     end_page_id := end_page_id a; parse_method := parse_method a;
     start_page_id := start_page_id a; lang_list := lang_list a;
     output_dir := output_dir a; server_url := server_url a;
     return_content_list := return_content_list a; backend := backend a;
     table_enable := table_enable a; formula_enable := formula_enable a;
     query_items := items |}.

Definition with_parser_url (u : option string) (a : ParseArgs) : ParseArgs :=
  {| parser_url := u; x_parser_url := x_parser_url a;
     return_middle_json := return_middle_json a;
     return_model_output := return_model_output a;
     return_md := return_md a; return_images := return_images a;
     end_page_id := end_page_id a; parse_method := parse_method a;
     start_page_id := start_page_id a; lang_list := lang_list a;
     output_dir := output_dir a; server_url := server_url a;
     return_content_list := return_content_list a; backend := backend a;
     table_enable := table_enable a; formula_enable := formula_enable a;
     query_items := query_items a |}.

End Sample.

(** ** Observations on a trace *)

Definition posts_of (t : list event) : list PostRequest :=
  flat_map (fun ev => match ev with EvPost rq => [rq] | _ => [] end) t.

Definition writes_of (t : list event) : list string :=
  flat_map (fun ev => match ev with EvOpenWrite p => [p] | _ => [] end) t.

(** The events that make the life of the artifacts of a request: a file
    opened for writing, a file unlinked, the response or error sent. *)
Definition artifact_events (t : list event) : list event :=
  List.filter
    (fun ev => match ev with
               | EvOpenWrite _ | EvUnlink _ | EvSent => true
               | _ => false
               end) t.

Definition is_post (ev : event) : Prop :=
  match ev with EvPost _ => True | _ => False end.


(** [c] only appends events that satisfy [Q] to the trace. *)
Definition emits (Q : event -> Prop) {A} (c : M A) : Prop :=
  forall w r w', c w = (r, w') ->
    exists evs, trace w' = trace w ++ evs /\ Forall Q evs.

(** The posts among [posts] all carry one file part, named [download_name]
    and read from [path]. *)
Definition carry_file (download_name path : string) (posts : list PostRequest)
    : Prop :=
  Forall (fun rq => exists field,
              rq_files rq = [(field, (download_name, path, "application/pdf"))])
         posts.

(** An event of the proxy step: no file is opened for writing, and a post
    carries the file part named [download_name], read from [path]. *)
Definition post_carries (download_name path : string) (ev : event) : Prop :=
  match ev with
  | EvPost rq =>
      exists field, rq_files rq = [(field, (download_name, path, "application/pdf"))]
  | EvOpenWrite _ => False
  | _ => True
  end.

(** [p] is on disk in [w]. *)
Definition on_disk (w : World) (p : Path) : bool :=
  match fs w !! PathLib.str p with Some _ => true | None => false end.


(** ** The specification's wording, to set against the code *)

Module Spec.

(** First match wins. *)
Fixpoint first_match {A} (l : list (option A)) : option A :=
  match l with
  | [] => None
  | Some a :: _ => Some a
  | None :: r => first_match r
  end.

Definition accepted_if_exists (w : World) (s : option string) : option Path :=
  match s with
  | Some v =>
      if Str.truthy v && on_disk w (PathLib.of_str v)
      then Some (PathLib.of_str v) else None
  | None => None
  end.

Definition searched (E : Env) (name : string) : option Path :=
  match which E name with
  | Some v => if Str.truthy v then Some (PathLib.of_str v) else None
  | None => None
  end.

Definition fixed_location (w : World) (p : Path) : option Path :=
  if on_disk w p then Some p else None.

(** Section 4.1: the override from the environment, accepted only if it
    exists on disk; the search path, for either of two binary names; two
    fixed fallback locations. *)
Definition locator_candidates (E : Env) (w : World) : list (option Path) :=
  [ accepted_if_exists w
      (py_or (getenv E "LIBREOFFICE_BIN") (getenv E "LIBREOFFICE_PATH"));
    searched E "libreoffice";
    searched E "soffice";
    fixed_location w mac_default;
    fixed_location w mac_alt ].

(** Section 4.4 as worded: the first source that is present wins. *)
Fixpoint first_present (sources : list (option string)) (fallback : string)
    : string :=
  match sources with
  | [] => fallback
  | Some s :: _ => s
  | None :: r => first_present r fallback
  end.

(** The first source that is present and not empty wins. *)
Fixpoint first_nonempty (sources : list (option string)) (fallback : string)
    : string :=
  match sources with
  | [] => fallback
  | Some s :: r => if Str.truthy s then s else first_nonempty r fallback
  | None :: r => first_nonempty r fallback
  end.

(** The sources of the destination, in the order of section 4.4. *)
Definition destination_sources (E : Env) (query header : option string)
    : list (option string) :=
  [ query; header; getenv E "PARSER_URL"; getenv E "PARSE_URL" ].

Definition has_scheme (url : string) : bool :=
  Str.startswith url "http://" || Str.startswith url "https://".

(** What resolution yields for the selected [url]. *)
Definition checked (url : string) : exn + string :=
  if has_scheme url then inr url
  else inl (HTTPException 400 "parser_url must start with http:// or https://").

End Spec.

(** ** The informational routes *)

Section Info.

Context (E : Env).


(** [root] (lines 357 to 359); the name [root] is taken by the paths.  The
    dictionary it returns is a constant, which the framework renders. *)
Definition root_endpoint : M response :=
  ret (JSONResponse 200
         (JObject
            [("service", JString "pptx2pdf");
             ("endpoints", JArray [JString "GET /healthz"; JString "POST /convert"])])).

End Info.

(** The world once [uuid.uuid4()] has drawn from the random source. *)
Definition next_uuid (w : World) : World :=
  mkWorld (fs w) (background w) (S (uuid_ctr w)) (trace w).

(** The path under which an endpoint stores the upload it receives in [w]. *)
Definition upload_path (E : Env) (w : World) (fname : string) : Path :=
  UPLOAD_DIR E // (Str.uuid_hex (urandom E (uuid_ctr w)) +:+ _safe_ext E fname).

(** The arguments of the cleanup task a request received in [w] queues:
    the stored upload and the converted file. *)
Definition cleanup_task (E : Env) (w : World) (file : UploadFile) : list Path :=
  [upload_path E w (default "" (filename file));
   OUTPUT_DIR E // (Str.uuid_hex (urandom E (uuid_ctr w)) +:+ ".pdf")].

(** The detail of the error of [convert] when the conversion raised [e]:
    the two [except] clauses of lines 137 to 144. *)
Definition convert_failure_detail (e : exn) : string :=
  match e with
  | FileNotFoundError _ => exn_str e
  | _ => "Conversion failed: " +:+ exn_str e
  end.

(** The error [convert_and_parse] raises when its [try] block raised [e]:
    the two [except] clauses of lines 345 to 353. *)
Definition parser_failure (e : exn) : exn :=
  match e with
  | HTTPException _ _ => e
  | _ => HTTPException 502 ("Failed to call parser: " +:+ exn_str e)
  end.

(** The world after one turn of the loop of [_cleanup_paths] on [p]: a
    regular file whose deletion does not fail is deleted, anything else
    (absent, a directory, a failing deletion) leaves the world as it is. *)
Definition after_unlink (E : Env) (w : World) (p : Path) : World :=
  let k := PathLib.str p in
  match fs w !! k with
  | Some (File _) =>
      match unlink_err E k with
      | None => with_fs w (delete k (fs w)) [EvUnlink k]
      | Some _ => w
      end
  | _ => w
  end.

(** The world in which [convert_pptx_to_pdf] looks for the executable
    (lines 55 to 58): [w] itself when [output_dir] is on disk, [w] with the
    directory made otherwise. *)
Definition with_output_dir (w : World) (output_dir : Path) : World :=
  if on_disk w output_dir then w
  else with_fs w (<[PathLib.str output_dir := Dir]> (fs w))
         [EvMkdir (PathLib.str output_dir)].

(** The error of [_parser_query_params] (line 89). *)
Definition query_error : exn :=
  HTTPException 400 "parser_query_ prefix requires a field name".

(** ** More deployments, for the worked examples *)

Module Cases.

(** A parsing service that cannot be reached. *)
Definition unreachable_parser (_ : list event) (_ : PostRequest)
    : exn + httpx_Response := inl (RuntimeError "All connection attempts failed").

Definition env_unreachable : Env :=
  Sample.env_with ∅ Sample.engine unreachable_parser.

(** A parsing service that answers 400 to the first post and lets the
    second one time out. *)
Definition flaky_parser (history : list event) (_ : PostRequest)
    : exn + httpx_Response :=
  match posts_of history with
  | [] => inr (mkResp 400 "{}")
  | _ => inl (RuntimeError "The read operation timed out")
  end.

Definition env_flaky : Env := Sample.env_with ∅ Sample.engine flaky_parser.

(** A parsing service whose answer holds a number that is not finite; the
    decoder of the client accepts it. *)
Definition nan_parser (_ : list event) (_ : PostRequest)
    : exn + httpx_Response := inr (mkResp 200 "[NaN]").

Definition env_nan : Env :=
  {| BASE_DIR := BASE_DIR Sample.env0;
     environ := environ Sample.env0;
     which := which Sample.env0;
     urandom := urandom Sample.env0;
     mkdir_err := mkdir_err Sample.env0;
     open_wb_err := open_wb_err Sample.env0;
     copy_err := copy_err Sample.env0;
     unlink_err := unlink_err Sample.env0;
     run_process := run_process Sample.env0;
     http_post := nan_parser;
     json_loads := fun s =>
       if String.eqb s "[NaN]" then Some (JArray [JNumber "NaN"])
       else json_loads Sample.env0 s;
     render_json := render_json Sample.env0;
     unicode_lower := unicode_lower Sample.env0 |}.

(** A host without LibreOffice: nothing on the search path. *)
Definition env_no_office : Env :=
  {| BASE_DIR := BASE_DIR Sample.env0;
     environ := environ Sample.env0;
     which := fun _ => None;
     urandom := urandom Sample.env0;
     mkdir_err := mkdir_err Sample.env0;
     open_wb_err := open_wb_err Sample.env0;
     copy_err := copy_err Sample.env0;
     unlink_err := unlink_err Sample.env0;
     run_process := run_process Sample.env0;
     http_post := http_post Sample.env0;
     json_loads := json_loads Sample.env0;
     render_json := render_json Sample.env0;
     unicode_lower := unicode_lower Sample.env0 |}.

(** A host on which the stored PDF cannot be deleted. *)
Definition env_sticky : Env :=
  {| BASE_DIR := BASE_DIR Sample.env0;
     environ := environ Sample.env0;
     which := which Sample.env0;
     urandom := urandom Sample.env0;
     mkdir_err := mkdir_err Sample.env0;
     open_wb_err := open_wb_err Sample.env0;
     copy_err := copy_err Sample.env0;
     unlink_err := fun k =>
       if String.eqb k "/srv/app/data/outputs/00ff.pdf"
       then Some (OSError "Permission denied") else None;
     run_process := run_process Sample.env0;
     http_post := http_post Sample.env0;
     json_loads := json_loads Sample.env0;
     render_json := render_json Sample.env0;
     unicode_lower := unicode_lower Sample.env0 |}.

End Cases.

(** * Properties *)

(** ** The monad *)

Lemma bind_inr_inv {A B} (c : M A) (k : A -> M B) w b w' :
  bind c k w = (inr b, w') ->
  exists a w1, c w = (inr a, w1) /\ k a w1 = (inr b, w').
Proof.
  unfold bind. destruct (c w) as [[e | a] w1] eqn:Hc; intros H.
  - discriminate.
  - exists a, w1. split; [reflexivity | exact H].
Qed.

Lemma bind_ok {A B} (c : M A) (k : A -> M B) w a w1 :
  c w = (inr a, w1) -> bind c k w = k a w1.
Proof. intros H. unfold bind. rewrite H. reflexivity. Qed.

Lemma bind_fail {A B} (c : M A) (k : A -> M B) w e w1 :
  c w = (inl e, w1) -> bind c k w = (inl e, w1).
Proof. intros H. unfold bind. rewrite H. reflexivity. Qed.

Lemma bind_ret {A B} (a : A) (k : A -> M B) w : bind (ret a) k w = k a w.
Proof. reflexivity. Qed.

Lemma bind_assoc {A B C} (c : M A) (k : A -> M B) (h : B -> M C) w :
  bind (bind c k) h w = bind c (fun a => bind (k a) h) w.
Proof. unfold bind. destruct (c w) as [[e | a] w1]; reflexivity. Qed.

Lemma bind_ext {A B} (c : M A) (k1 k2 : A -> M B) w :
  (forall a w1, k1 a w1 = k2 a w1) -> bind c k1 w = bind c k2 w.
Proof.
  intros H. unfold bind. destruct (c w) as [[e | a] w1]; [reflexivity | apply H].
Qed.

Lemma try_except_ok {A} (body : M A) h w a w1 :
  body w = (inr a, w1) -> try_except body h w = (inr a, w1).
Proof. intros H. unfold try_except. rewrite H. reflexivity. Qed.

Lemma try_except_fail {A} (body : M A) h w e w1 :
  body w = (inl e, w1) -> try_except body h w = h e w1.
Proof. intros H. unfold try_except. rewrite H. reflexivity. Qed.

(** A handler that always re-raises lets only the body succeed. *)
Lemma try_except_inr_inv {A} (body : M A) h w a w' :
  (forall e w1 a1 w2, h e w1 <> (inr a1, w2)) ->
  try_except body h w = (inr a, w') -> body w = (inr a, w').
Proof.
  intros Hh. unfold try_except.
  destruct (body w) as [[e | a1] w1]; intros H.
  - exfalso. exact (Hh _ _ _ _ H).
  - exact H.
Qed.

Lemma then_raise_never_returns {A B} (c : M A) (e : exn) w (b : B) w' :
  bind c (fun _ => raise e) w <> (inr b, w').
Proof.
  unfold bind, raise. destruct (c w) as [[e1 | a] w1]; discriminate.
Qed.

(** ** Traces *)

Lemma emits_ret Q {A} (a : A) : emits Q (ret a).
Proof.
  intros w r w' H. inversion H; subst. exists []. split.
  - symmetry. apply app_nil_r.
  - constructor.
Qed.

Lemma emits_raise Q {A} (e : exn) : emits Q (@raise A e).
Proof.
  intros w r w' H. inversion H; subst. exists []. split.
  - symmetry. apply app_nil_r.
  - constructor.
Qed.

Lemma emits_bind Q {A B} (c : M A) (k : A -> M B) :
  emits Q c -> (forall a, emits Q (k a)) -> emits Q (bind c k).
Proof.
  intros Hc Hk w r w'. unfold bind.
  destruct (c w) as [[e | a] w1] eqn:Ec; intros H.
  - inversion H; subst. exact (Hc _ _ _ Ec).
  - destruct (Hc _ _ _ Ec) as (ev1 & T1 & F1).
    destruct (Hk a _ _ _ H) as (ev2 & T2 & F2).
    exists (ev1 ++ ev2). split.
    + rewrite T2, T1. symmetry. apply app_assoc.
    + apply Forall_app. split; assumption.
Qed.

Lemma emits_try Q {A} (body : M A) h :
  emits Q body -> (forall e, emits Q (h e)) -> emits Q (try_except body h).
Proof.
  intros Hb Hh w r w'. unfold try_except.
  destruct (body w) as [[e | a] w1] eqn:Eb; intros H.
  - destruct (Hb _ _ _ Eb) as (ev1 & T1 & F1).
    destruct (Hh e _ _ _ H) as (ev2 & T2 & F2).
    exists (ev1 ++ ev2). split.
    + rewrite T2, T1. symmetry. apply app_assoc.
    + apply Forall_app. split; assumption.
  - inversion H; subst. exact (Hb _ _ _ Eb).
Qed.

Lemma emits_for_each Q {A} (xs : list A) body :
  (forall x, emits Q (body x)) -> emits Q (for_each xs body).
Proof.
  intros Hb. induction xs as [| x r IH]; simpl.
  - apply emits_ret.
  - apply emits_bind; [apply Hb | intros _; exact IH].
Qed.

Lemma emits_if Q {A} (b : bool) (c1 c2 : M A) :
  emits Q c1 -> emits Q c2 -> emits Q (if b then c1 else c2).
Proof. destruct b; auto. Qed.

Ltac emits_none :=
  eexists []; split; [ rewrite ?app_nil_r; reflexivity | constructor ].

Ltac emits_one :=
  eexists [_]; split;
  [ simpl; rewrite ?app_nil_r; reflexivity | repeat constructor; auto ].

Section TraceOfPrimitives.

Context (E : Env) (Q : event -> Prop).

Lemma emits_path_exists p : emits Q (path_exists p).
Proof.
  intros w r w' H. unfold path_exists in H.
  destruct (fs w !! PathLib.str p); inversion H; subst; emits_none.
Qed.

Lemma emits_path_read_bytes p : emits Q (path_read_bytes p).
Proof.
  intros w r w' H. unfold path_read_bytes in H.
  destruct (fs w !! PathLib.str p) as [[| c] |]; inversion H; subst; emits_none.
Qed.

Lemma emits_path_open_rb p : emits Q (path_open_rb p).
Proof.
  apply emits_bind; [apply emits_path_read_bytes | intros; apply emits_ret].
Qed.

Lemma emits_uuid4_hex : emits Q (uuid4_hex E).
Proof.
  intros w r w' H. unfold uuid4_hex in H. injection H as <- <-.
  cbn [trace]. emits_none.
Qed.

Lemma emits_add_task ps : emits Q (add_task ps).
Proof. intros w r w' H. inversion H; subst. simpl. emits_none. Qed.

Lemma emits_path_unlink p :
  (forall k, Q (EvUnlink k)) -> emits Q (path_unlink E p).
Proof.
  intros HQ w r w' H. unfold path_unlink in H.
  destruct (fs w !! PathLib.str p) as [[| c] |]; try (inversion H; subst; emits_none).
  destruct (unlink_err E (PathLib.str p)); inversion H; subst.
  - emits_none.
  - emits_one.
Qed.

Lemma emits_path_mkdir p :
  (forall k, Q (EvMkdir k)) -> emits Q (path_mkdir E p).
Proof.
  intros HQ w r w' H. unfold path_mkdir in H.
  destruct (fs w !! PathLib.str p) as [[| c] |]; try (inversion H; subst; emits_none).
  destruct (mkdir_err E (PathLib.str p)); inversion H; subst.
  - emits_none.
  - emits_one.
Qed.

Lemma emits_write_upload p c :
  (forall k, Q (EvOpenWrite k)) -> emits Q (write_upload E p c).
Proof.
  intros HQ w r w' H. unfold write_upload in H.
  destruct (fs w !! PathLib.str p) as [[| c0] |];
    try (inversion H; subst; emits_none);
    (destruct (open_wb_err E (PathLib.str p)); [inversion H; subst; emits_none |]);
    (destruct (copy_err E (PathLib.str p)); inversion H; subst; emits_one).
Qed.

Lemma emits_subprocess_run cmd :
  (forall c, Q (EvSpawn c)) -> emits Q (subprocess_run E cmd).
Proof.
  intros HQ w r w' H. unfold subprocess_run in H.
  destruct (run_process E cmd (fs w)) as [[e |] f]; inversion H; subst; emits_one.
Qed.

Lemma emits_client_post rq :
  Q (EvPost rq) -> emits Q (client_post E rq).
Proof.
  intros HQ w r w' H. unfold client_post in H.
  destruct (http_post E (trace w) rq); inversion H; subst; emits_one.
Qed.

Lemma emits_resolve_libreoffice_path : emits Q (resolve_libreoffice_path E).
Proof.
  unfold resolve_libreoffice_path.
  assert (Hafter : emits Q
    match which_first E ["libreoffice"; "soffice"] with
    | Some found => ret (PathLib.of_str found)
    | None =>
        e1 <~ path_exists mac_default ;;
        if e1 then ret mac_default
        else
          e2 <~ path_exists mac_alt ;;
          if e2 then ret mac_alt
          else raise (FileNotFoundError lo_not_found)
    end).
  { destruct (which_first E _).
    - apply emits_ret.
    - apply emits_bind; [apply emits_path_exists |].
      intros [|]; [apply emits_ret |].
      apply emits_bind; [apply emits_path_exists |].
      intros [|]; [apply emits_ret | apply emits_raise]. }
  destruct (py_or _ _) as [s |]; [| exact Hafter].
  destruct (Str.truthy s); [| exact Hafter].
  apply emits_bind; [apply emits_path_exists |].
  intros [|]; [apply emits_ret | exact Hafter].
Qed.

Lemma emits_convert_pptx_to_pdf inp out :
  (forall k, Q (EvMkdir k)) -> (forall c, Q (EvSpawn c)) ->
  emits Q (convert_pptx_to_pdf E inp out).
Proof.
  intros Hm Hs. unfold convert_pptx_to_pdf.
  apply emits_bind; [apply emits_path_exists |]. intros e.
  apply emits_bind.
  { destruct e; simpl; [apply emits_ret | apply emits_path_mkdir, Hm]. }
  intros _. apply emits_bind; [apply emits_resolve_libreoffice_path |].
  intros lo. apply emits_bind; [apply emits_subprocess_run, Hs |].
  intros _. apply emits_bind; [apply emits_path_exists |].
  intros [|]; simpl; [apply emits_ret | apply emits_raise].
Qed.

Lemma emits__cleanup_paths ps :
  (forall k, Q (EvUnlink k)) -> emits Q (_cleanup_paths E ps).
Proof.
  intros Hu. unfold _cleanup_paths. apply emits_for_each. intros p.
  apply emits_try.
  - apply emits_bind; [apply emits_path_exists |].
    intros [|]; [apply emits_path_unlink, Hu | apply emits_ret].
  - intros _. apply emits_ret.
Qed.

End TraceOfPrimitives.

(** ** The executable locator *)

Section Locator.

Context (E : Env).

Lemma path_exists_on_disk p w : path_exists p w = (inr (on_disk w p), w).
Proof.
  unfold path_exists, on_disk. destruct (fs w !! PathLib.str p); reflexivity.
Qed.

Lemma which_first_searched :
  Spec.first_match [Spec.searched E "libreoffice"; Spec.searched E "soffice"]
  = PathLib.of_str <$> which_first E ["libreoffice"; "soffice"].
Proof.
  unfold Spec.searched, which_first, py_truthy. cbn [Spec.first_match].
  destruct (which E "libreoffice") as [v |]; [destruct (Str.truthy v) |];
    try reflexivity;
    (destruct (which E "soffice") as [v' |]; [destruct (Str.truthy v') |]);
    reflexivity.
Qed.

(** The locator after the environment override did not settle it. *)
Lemma locator_after_env w :
  match which_first E ["libreoffice"; "soffice"] with
  | Some found => ret (PathLib.of_str found)
  | None =>
      e1 <~ path_exists mac_default ;;
      if e1 then ret mac_default
      else
        e2 <~ path_exists mac_alt ;;
        if e2 then ret mac_alt
        else raise (FileNotFoundError lo_not_found)
  end w
  = (match Spec.first_match
             [Spec.searched E "libreoffice"; Spec.searched E "soffice";
              Spec.fixed_location w mac_default; Spec.fixed_location w mac_alt]
     with
     | Some p => inr p
     | None => inl (FileNotFoundError lo_not_found)
     end, w).
Proof.
  pose proof which_first_searched as Hs.
  cbn [Spec.first_match] in Hs |- *.
  destruct (Spec.searched E "libreoffice") as [p1 |].
  - destruct (which_first E _) as [f |]; [| discriminate].
    injection Hs as ->. reflexivity.
  - destruct (Spec.searched E "soffice") as [p2 |].
    + destruct (which_first E _) as [f |]; [| discriminate].
      injection Hs as ->. reflexivity.
    + destruct (which_first E _) as [f |]; [discriminate |].
      unfold bind. rewrite path_exists_on_disk. unfold Spec.fixed_location.
      destruct (on_disk w mac_default); [reflexivity |].
      rewrite path_exists_on_disk.
      destruct (on_disk w mac_alt); reflexivity.
Qed.

End Locator.


(** ** The deferred cleanup *)

Lemma cleanup_one_returns (E : Env) (p : Path) (w : World) :
  exists w',
    try_except
      (e <~ path_exists p ;; if e then path_unlink E p else ret tt)
      (fun _ => ret tt) w = (inr tt, w').
Proof.
  unfold try_except.
  destruct ((e <~ path_exists p ;; if e then path_unlink E p else ret tt) w)
    as [[e | []] w1].
  - exists w1. reflexivity.
  - exists w1. reflexivity.
Qed.

Lemma cleanup_returns (E : Env) (paths : list Path) (w : World) :
  exists w', _cleanup_paths E paths w = (inr tt, w').
Proof.
  unfold _cleanup_paths. revert w.
  induction paths as [| p r IH]; intros w.
  - exists w. reflexivity.
  - cbn [for_each]. destruct (cleanup_one_returns E p w) as [w1 H1].
    destruct (IH w1) as [w2 H2]. exists w2.
    rewrite (bind_ok _ _ _ _ _ H1). exact H2.
Qed.

(** C9.  Cleanup never raises: for every list of paths and every world
    (paths absent, already deleted, directories, or whose deletion errors),
    one call of [_cleanup_paths] returns normally, and so does any sequence
    of calls, and so does the run of the queued background tasks. *)
Theorem cleanup_never_raises (E : Env) :
  (forall paths w, exists w', _cleanup_paths E paths w = (inr tt, w'))
  /\ (forall calls w, exists w', for_each calls (_cleanup_paths E) w = (inr tt, w'))
  /\ (forall w, exists w', run_background E w = (inr tt, w')).
Proof.
  assert (Hseq : forall calls w,
             exists w', for_each calls (_cleanup_paths E) w = (inr tt, w')).
  { induction calls as [| ps r IH]; intros w.
    - exists w. reflexivity.
    - cbn [for_each]. destruct (cleanup_returns E ps w) as [w1 H1].
      destruct (IH w1) as [w2 H2]. exists w2.
      rewrite (bind_ok _ _ _ _ _ H1). exact H2. }
  split; [apply cleanup_returns |]. split; [exact Hseq |].
  intros w. unfold run_background. apply Hseq.
Qed.

(** ** Destination resolution *)

Lemma selected_url_first_nonempty (E : Env) (q h : option string) :
  py_or_else (py_or q h) (_effective_parser_url E)
  = Spec.first_nonempty (Spec.destination_sources E q h) default_parser_url.
Proof.
  unfold _effective_parser_url, Spec.destination_sources, py_or_else, py_or.
  cbn [Spec.first_nonempty].
  destruct q as [s |]; [destruct (Str.truthy s) eqn:Hs; [rewrite Hs; reflexivity |] |];
    (destruct h as [t |]; [destruct (Str.truthy t) eqn:Ht; [rewrite ?Ht; reflexivity |] |]);
    (destruct (getenv E "PARSER_URL") as [u |];
       [destruct (Str.truthy u) eqn:Hu; [rewrite ?Hu; reflexivity |] |]);
    (destruct (getenv E "PARSE_URL") as [v |];
       [destruct (Str.truthy v) eqn:Hv; rewrite ?Hv; reflexivity |]);
    reflexivity.
Qed.

Lemma resolve_checked (E : Env) (q h : option string) (w : World) :
  _resolve_parser_url E q h w
  = (Spec.checked (py_or_else (py_or q h) (_effective_parser_url E)), w).
Proof.
  unfold _resolve_parser_url, Spec.checked, Spec.has_scheme.
  destruct (Str.startswith _ "http://" || Str.startswith _ "https://"); reflexivity.
Qed.

(** C4, as amended.  The destination is the first source that is present
    and not empty, in the order query parameter, request header,
    [PARSER_URL], [PARSE_URL], hardcoded address; the scheme check is then
    applied to it.  Absent and empty sources are skipped alike. *)
Theorem destination_first_nonempty (E : Env) (q h : option string) (w : World) :
  _resolve_parser_url E q h w
  = (Spec.checked
       (Spec.first_nonempty (Spec.destination_sources E q h) default_parser_url),
     w).
Proof. rewrite resolve_checked, selected_url_first_nonempty. reflexivity. Qed.

(** A query parameter that is not empty settles the destination, whatever
    the header and the environment hold; and so on down the order. *)
Lemma query_override_wins (E : Env) (s : string) (h : option string) (w : World) :
  Str.truthy s = true ->
  _resolve_parser_url E (Some s) h w = (Spec.checked s, w).
Proof.
  intros Hs. rewrite resolve_checked. unfold py_or_else, py_or.
  rewrite Hs, Hs. reflexivity.
Qed.

Lemma header_override_wins (E : Env) (q : option string) (s : string) (w : World) :
  py_truthy q = false -> Str.truthy s = true ->
  _resolve_parser_url E q (Some s) w = (Spec.checked s, w).
Proof.
  intros Hq Hs. rewrite resolve_checked. unfold py_or_else, py_or.
  destruct q as [t |]; cbn [py_truthy] in Hq; rewrite ?Hq, Hs; reflexivity.
Qed.

Lemma hardcoded_fallback (E : Env) (q h : option string) (w : World) :
  py_truthy q = false -> py_truthy h = false ->
  py_truthy (getenv E "PARSER_URL") = false ->
  py_truthy (getenv E "PARSE_URL") = false ->
  _resolve_parser_url E q h w = (inr default_parser_url, w).
Proof.
  intros Hq Hh H1 H2. rewrite resolve_checked.
  unfold _effective_parser_url, py_or_else, py_or.
  destruct q as [a |]; cbn [py_truthy] in Hq; rewrite ?Hq;
    (destruct h as [b |]; cbn [py_truthy] in Hh; rewrite ?Hh);
    (destruct (getenv E "PARSER_URL") as [c |]; cbn [py_truthy] in H1; rewrite ?H1);
    (destruct (getenv E "PARSE_URL") as [d |]; cbn [py_truthy] in H2; rewrite ?H2);
    reflexivity.
Qed.

(** C4 as worded fails: an empty query parameter is present, yet the
    header decides; "first present wins" would have the empty string
    selected and the request refused. *)
Lemma first_present_refuted :
  let code :=
    fst (_resolve_parser_url Sample.env0 (Some "")
           (Some "http://header.example/parse") Sample.world0) in
  let worded :=
    Spec.checked
      (Spec.first_present
         (Spec.destination_sources Sample.env0 (Some "")
            (Some "http://header.example/parse"))
         default_parser_url) in
  code = inr "http://header.example/parse"
  /\ worded = inl (HTTPException 400 "parser_url must start with http:// or https://")
  /\ code <> worded.
Proof.
  cbv zeta. split; [| split].
  - vm_compute. reflexivity.
  - vm_compute. reflexivity.
  - vm_compute. discriminate.
Qed.

(** ** Upload validation *)

Example safe_ext_ignores_case (E : Env) :
  _safe_ext E "Quarterly Review.PPTX" = ".pptx".
Proof. reflexivity. Qed.

Example safe_ext_last_suffix (E : Env) : _safe_ext E "deck.pptx.exe" = ".exe".
Proof. reflexivity. Qed.

Example safe_ext_hidden_file (E : Env) : _safe_ext E ".pptx" = "".
Proof. reflexivity. Qed.

Lemma allowed_ext_false (ext : string) :
  ext ∉ ({[ ".ppt"; ".pptx" ]} : gset string) -> allowed_ext ext = false.
Proof. intros H. unfold allowed_ext. apply bool_decide_eq_false. exact H. Qed.

Lemma allowed_ext_true (ext : string) :
  allowed_ext ext = true -> ext = ".ppt" \/ ext = ".pptx".
Proof.
  unfold allowed_ext. intros H. apply bool_decide_eq_true in H.
  set_solver.
Qed.

(** C6.  An upload whose file name has a lower-cased suffix outside
    [{.ppt, .pptx}] is refused with status 400 by each of the three
    endpoints, and the world (so the file system too) is left exactly as it
    was: nothing has been written. *)
Theorem bad_extension_rejected
    (E : Env) (fname bytes : string) (a : ParseArgs) (w : World) :
  _safe_ext E fname ∉ ({[ ".ppt"; ".pptx" ]} : gset string) ->
  let file := mkUpload (Some fname) bytes in
  exists detail,
    convert E file w = (inl (HTTPException 400 detail), w)
    /\ convert_multipart E file w = (inl (HTTPException 400 detail), w)
    /\ convert_and_parse E file a w = (inl (HTTPException 400 detail), w).
Proof.
  intros Hext file. pose proof (allowed_ext_false _ Hext) as Ha.
  unfold convert, convert_multipart, convert_and_parse, file.
  cbn [filename py_truthy from_option id].
  destruct (Str.truthy fname); cbn [negb].
  - rewrite Ha. cbn [negb]. eexists. repeat split.
  - eexists. repeat split.
Qed.

Lemma bad_extension_rejected_witness :
  exists detail,
    convert Sample.env0 (mkUpload (Some "notes.txt") "hello") Sample.world0
    = (inl (HTTPException 400 detail), Sample.world0)
    /\ convert_multipart Sample.env0 (mkUpload (Some "notes.txt") "hello") Sample.world0
       = (inl (HTTPException 400 detail), Sample.world0)
    /\ convert_and_parse Sample.env0 (mkUpload (Some "notes.txt") "hello")
         Sample.args0 Sample.world0
       = (inl (HTTPException 400 detail), Sample.world0).
Proof.
  apply (bad_extension_rejected Sample.env0 "notes.txt" "hello" Sample.args0 Sample.world0).
  vm_compute. set_solver.
Defined.

(** ** Strings and paths *)

Lemma append_cons (a : ascii) (s t : string) :
  String a s +:+ t = String a (s +:+ t).
Proof. reflexivity. Qed.

Lemma append_nil (t : string) : "" +:+ t = t.
Proof. reflexivity. Qed.

Lemma length_append (s t : string) :
  String.length (s +:+ t) = (String.length s + String.length t)%nat.
Proof.
  induction s as [| a s IH]; [reflexivity |].
  rewrite append_cons. cbn [String.length]. rewrite IH. reflexivity.
Qed.

Lemma mem_append (c : ascii) (s t : string) :
  Str.mem c (s +:+ t) = Str.mem c s || Str.mem c t.
Proof.
  induction s as [| a s IH]; [reflexivity |].
  rewrite append_cons. cbn [Str.mem]. rewrite IH. apply orb_assoc.
Qed.

Lemma take_append (s t : string) : Str.take (String.length s) (s +:+ t) = s.
Proof.
  induction s as [| a s IH].
  - destruct t; reflexivity.
  - rewrite append_cons. cbn [String.length Str.take]. rewrite IH. reflexivity.
Qed.

Lemma drop_append (s t : string) : Str.drop (String.length s) (s +:+ t) = t.
Proof.
  induction s as [| a s IH].
  - destruct t; reflexivity.
  - rewrite append_cons. cbn [String.length Str.drop]. exact IH.
Qed.

Lemma take_length_le (n : nat) (s : string) :
  (String.length (Str.take n s) <= n)%nat.
Proof.
  revert s. induction n as [| n IH]; intros s.
  - destruct s; cbn; lia.
  - destruct s as [| a s]; cbn [Str.take String.length]; [lia |].
    specialize (IH s). lia.
Qed.

Lemma rfind_absent (c : ascii) (s : string) :
  Str.mem c s = false -> Str.rfind c s = None.
Proof.
  induction s as [| a s IH]; [reflexivity |].
  cbn [Str.mem Str.rfind]. intros H. apply orb_false_iff in H as [Ha Hs].
  rewrite (IH Hs), Ha. reflexivity.
Qed.

Lemma rfind_last (c : ascii) (s t : string) :
  Str.mem c t = false ->
  Str.rfind c (s +:+ String c t) = Some (String.length s).
Proof.
  intros Ht. induction s as [| a s IH].
  - rewrite append_nil. cbn [Str.rfind String.length].
    rewrite (rfind_absent _ _ Ht), Ascii.eqb_refl. reflexivity.
  - rewrite append_cons. cbn [Str.rfind String.length]. rewrite IH. reflexivity.
Qed.

Lemma split_no_separator (c : ascii) (s : string) :
  Str.mem c s = false -> Str.split c s = [s].
Proof.
  induction s as [| a s IH]; [reflexivity |].
  cbn [Str.mem Str.split]. intros H. apply orb_false_iff in H as [Ha Hs].
  rewrite Ha, (IH Hs). reflexivity.
Qed.

Lemma hex_digit_not (c : ascii) :
  Str.mem c "0123456789abcdef" = false ->
  forall d, Ascii.eqb (Str.hex_digit d) c = false.
Proof.
  cbn [Str.mem]. intros H.
  repeat (apply orb_false_iff in H; destruct H as [? H]).
  intros [| p]; [assumption |].
  do 4 (try destruct p as [p | p |]); assumption.
Qed.

Lemma hex_fixed_S (k : nat) (n : N) :
  Str.hex_fixed (S k) n
  = Str.hex_fixed k (n / 16) +:+ String (Str.hex_digit (n mod 16)) "".
Proof. reflexivity. Qed.

Lemma hex_fixed_length (k : nat) (n : N) : String.length (Str.hex_fixed k n) = k.
Proof.
  revert n. induction k as [| k IH]; intros n; [reflexivity |].
  rewrite hex_fixed_S. rewrite length_append, IH. cbn [String.length]. lia.
Qed.

Lemma hex_fixed_mem (c : ascii) (k : nat) (n : N) :
  Str.mem c "0123456789abcdef" = false -> Str.mem c (Str.hex_fixed k n) = false.
Proof.
  intros Hc. revert n. induction k as [| k IH]; intros n; [reflexivity |].
  rewrite hex_fixed_S. rewrite mem_append, IH. cbn [Str.mem orb].
  rewrite (hex_digit_not c Hc). reflexivity.
Qed.

Lemma uuid_hex_length (n : N) : String.length (Str.uuid_hex n) = 32%nat.
Proof. apply hex_fixed_length. Qed.

Lemma uuid_hex_mem (c : ascii) (n : N) :
  Str.mem c "0123456789abcdef" = false -> Str.mem c (Str.uuid_hex n) = false.
Proof. apply hex_fixed_mem. Qed.

(** A component without a slash, other than [""] and ["."], parses to
    itself. *)
Lemma of_str_plain (n : string) :
  Str.mem "/" n = false -> (2 <= String.length n)%nat ->
  PathLib.of_str n = mkPath "" [n].
Proof.
  intros Hm Hl. unfold PathLib.of_str, PathLib.splitroot.
  destruct n as [| a [| b t]]; cbn [String.length] in Hl; try lia.
  cbn [Str.mem] in Hm. apply orb_false_iff in Hm as [Ha Hm].
  cbn [Str.take]. cbn [String.eqb]. rewrite Ha. cbn [andb negb].
  rewrite split_no_separator.
  2:{ cbn [Str.mem]. rewrite Ha. exact Hm. }
  cbn [List.filter]. unfold PathLib.keep_part. cbn [String.eqb].
  destruct (Ascii.eqb a "."); reflexivity.
Qed.

Lemma truediv_plain (d : Path) (n : string) :
  Str.mem "/" n = false -> (2 <= String.length n)%nat ->
  d // n = mkPath (root d) (parts d ++ [n]).
Proof.
  intros Hm Hl. unfold PathLib.truediv. rewrite (of_str_plain n Hm Hl).
  reflexivity.
Qed.

Lemma name_truediv_plain (d : Path) (n : string) :
  Str.mem "/" n = false -> (2 <= String.length n)%nat ->
  PathLib.name (d // n) = n.
Proof.
  intros Hm Hl. rewrite (truediv_plain d n Hm Hl). unfold PathLib.name.
  cbn [parts]. apply last_last.
Qed.

(** The stem of [<stem><dot><rest>] when neither [stem] nor [rest] holds a
    dot and both are non-empty. *)
Lemma stem_of_name (d : Path) (s t : string) :
  Str.mem "/" (s +:+ String "." t) = false ->
  Str.mem "." t = false ->
  (1 <= String.length s)%nat -> (1 <= String.length t)%nat ->
  PathLib.stem (d // (s +:+ String "." t)) = s
  /\ PathLib.suffix (d // (s +:+ String "." t)) = String "." t.
Proof.
  intros Hsl Hdot Hs Ht.
  assert (Hlen : String.length (s +:+ String "." t)
                 = (String.length s + S (String.length t))%nat).
  { rewrite length_append. reflexivity. }
  unfold PathLib.stem, PathLib.suffix.
  rewrite name_truediv_plain by (try assumption; lia).
  rewrite (rfind_last "." s t Hdot), Hlen.
  replace ((0 <? String.length s)%nat) with true
    by (symmetry; apply Nat.ltb_lt; lia).
  replace ((String.length s <? String.length s + S (String.length t) - 1)%nat)
    with true by (symmetry; apply Nat.ltb_lt; lia).
  cbn [andb]. rewrite take_append, drop_append. split; reflexivity.
Qed.

(** ** The converter *)

Lemma ext_shape (ext : string) :
  allowed_ext ext = true ->
  exists t, ext = String "." t /\ Str.mem "." t = false
            /\ Str.mem "/" ext = false /\ (1 <= String.length t)%nat.
Proof.
  intros H. destruct (allowed_ext_true _ H) as [-> | ->].
  - exists "ppt". repeat split; cbn; lia.
  - exists "pptx". repeat split; cbn; lia.
Qed.

(** The stored upload [<hex><ext>] has the generated identifier as its stem. *)
Lemma upload_path_stem (d : Path) (n : N) (ext : string) :
  allowed_ext ext = true ->
  PathLib.stem (d // (Str.uuid_hex n +:+ ext)) = Str.uuid_hex n
  /\ PathLib.name (d // (Str.uuid_hex n +:+ ext)) = Str.uuid_hex n +:+ ext.
Proof.
  intros H. destruct (ext_shape ext H) as (t & -> & Hdot & Hslash & Ht).
  pose proof (uuid_hex_length n) as Hl.
  assert (Hm : Str.mem "/" (Str.uuid_hex n +:+ String "." t) = false).
  { rewrite mem_append, Hslash, uuid_hex_mem by reflexivity. reflexivity. }
  split.
  - apply stem_of_name; try assumption. lia.
  - apply name_truediv_plain; [exact Hm |].
    rewrite length_append. lia.
Qed.


Section Converter.

Context (E : Env).

Lemma convert_pptx_to_pdf_split inp out w :
  convert_pptx_to_pdf E inp out w
  = bind (run_engine E inp out) (fun _ => check_output inp out) w.
Proof.
  unfold convert_pptx_to_pdf, run_engine, check_output, expected_pdf,
    convert_command.
  rewrite bind_assoc. apply bind_ext. intros e w1.
  rewrite bind_assoc. apply bind_ext. intros _ w2.
  rewrite bind_assoc. apply bind_ext. intros lo w3.
  reflexivity.
Qed.

Lemma check_output_result inp out w :
  check_output inp out w
  = (if on_disk w (expected_pdf inp out)
     then inr (expected_pdf inp out)
     else inl (FileNotFoundError
                 ("Expected PDF not found: " +:+ PathLib.str (expected_pdf inp out))),
     w).
Proof.
  unfold check_output, bind. rewrite path_exists_on_disk.
  destruct (on_disk w (expected_pdf inp out)); reflexivity.
Qed.

Lemma convert_success_inv inp out w p w' :
  convert_pptx_to_pdf E inp out w = (inr p, w') ->
  run_engine E inp out w = (inr tt, w')
  /\ p = expected_pdf inp out /\ on_disk w' (expected_pdf inp out) = true.
Proof.
  rewrite convert_pptx_to_pdf_split. intros H.
  apply bind_inr_inv in H as ([] & w1 & Hrun & Hchk).
  rewrite check_output_result in Hchk.
  destruct (on_disk w1 (expected_pdf inp out)) eqn:Hd; [| discriminate].
  injection Hchk as <- <-. auto.
Qed.

End Converter.

(** C7.  A successful conversion returns [output_dir/<input stem>.pdf], a
    path that is then on disk; when the subprocess has returned and that path
    is not on disk the conversion fails with [FileNotFoundError], and when it
    is on disk the conversion succeeds.  For an upload stored under its
    generated identifier the expected path is [output_dir/<hex>.pdf]. *)
Theorem converted_output_path (E : Env) (inp out : Path) (w : World) :
  (forall p w',
      convert_pptx_to_pdf E inp out w = (inr p, w') ->
      p = out // (PathLib.stem inp +:+ ".pdf") /\ on_disk w' p = true)
  /\ (forall w1,
         run_engine E inp out w = (inr tt, w1) ->
         on_disk w1 (out // (PathLib.stem inp +:+ ".pdf")) = false ->
         convert_pptx_to_pdf E inp out w
         = (inl (FileNotFoundError
                   ("Expected PDF not found: "
                    +:+ PathLib.str (out // (PathLib.stem inp +:+ ".pdf")))), w1))
  /\ (forall w1,
         run_engine E inp out w = (inr tt, w1) ->
         on_disk w1 (out // (PathLib.stem inp +:+ ".pdf")) = true ->
         convert_pptx_to_pdf E inp out w
         = (inr (out // (PathLib.stem inp +:+ ".pdf")), w1))
  /\ (forall d n ext,
         allowed_ext ext = true ->
         inp = d // (Str.uuid_hex n +:+ ext) ->
         out // (PathLib.stem inp +:+ ".pdf") = out // (Str.uuid_hex n +:+ ".pdf")).
Proof.
  fold (expected_pdf inp out). repeat split.
  - apply convert_success_inv in H as (_ & -> & _). reflexivity.
  - apply convert_success_inv in H as (_ & -> & Hd). exact Hd.
  - intros w1 Hrun Hd. rewrite convert_pptx_to_pdf_split.
    rewrite (bind_ok _ _ _ _ _ Hrun), check_output_result, Hd. reflexivity.
  - intros w1 Hrun Hd. rewrite convert_pptx_to_pdf_split.
    rewrite (bind_ok _ _ _ _ _ Hrun), check_output_result, Hd. reflexivity.
  - intros d n ext Hext ->. unfold expected_pdf.
    destruct (upload_path_stem d n ext Hext) as [-> _]. reflexivity.
Qed.

Lemma converted_output_path_witness :
  let inp := PathLib.of_str "/srv/app/data/uploads/00ff.pptx" in
  let out := PathLib.of_str "/srv/app/data/outputs" in
  (exists w1,
      convert_pptx_to_pdf Sample.env_silent
        inp out Sample.world0
      = (inl (FileNotFoundError
                "Expected PDF not found: /srv/app/data/outputs/00ff.pdf"), w1))
  /\ out // (PathLib.stem (UPLOAD_DIR Sample.env0 // (Str.uuid_hex 255 +:+ ".ppt")) +:+ ".pdf")
     = out // (Str.uuid_hex 255 +:+ ".pdf").
Proof.
  intros inp out. split.
  - eexists.
    apply (proj1 (proj2 (converted_output_path
                           Sample.env_silent
                           inp out Sample.world0))).
    + vm_compute. reflexivity.
    + vm_compute. reflexivity.
  - apply (proj2 (proj2 (proj2 (converted_output_path Sample.env0
             (UPLOAD_DIR Sample.env0 // (Str.uuid_hex 255 +:+ ".ppt")) out Sample.world0)))
             (UPLOAD_DIR Sample.env0) 255%N ".ppt").
    + vm_compute. reflexivity.
    + reflexivity.
Defined.

(** ** The downstream proxy *)

Lemma posts_of_app (t u : list event) : posts_of (t ++ u) = posts_of t ++ posts_of u.
Proof. unfold posts_of. apply flat_map_app. Qed.


Lemma posts_of_quiet (evs : list event) :
  Forall (fun ev => ~ is_post ev) evs -> posts_of evs = [].
Proof.
  induction 1 as [| ev evs Hev _ IH]; [reflexivity |].
  destruct ev; cbn in Hev |- *; try exact IH. exfalso. exact (Hev I).
Qed.


Section Proxy.

Context (E : Env).

Lemma proxy_step_bad_url fname inp pdf a w :
  Spec.has_scheme
    (py_or_else (py_or (parser_url a) (x_parser_url a)) (_effective_parser_url E))
  = false ->
  proxy_step E fname inp pdf a w
  = (inl (HTTPException 400 "parser_url must start with http:// or https://"), w).
Proof.
  intros H. unfold proxy_step. apply bind_fail.
  rewrite resolve_checked. unfold Spec.checked. rewrite H. reflexivity.
Qed.

(** Everything [convert_and_parse] does before the proxy step, and the
    proxy step itself when it does not get past the destination check,
    stays off the network. *)
Lemma convert_and_parse_offline file a :
  (forall fname inp pdf,
      emits (fun ev => ~ is_post ev) (proxy_step E fname inp pdf a)) ->
  emits (fun ev => ~ is_post ev) (convert_and_parse E file a).
Proof.
  intros Hproxy. unfold convert_and_parse.
  apply emits_if; [apply emits_raise |].
  apply emits_if; [apply emits_raise |].
  apply emits_bind; [apply emits_uuid4_hex |]. intros u.
  apply emits_bind.
  { apply emits_try; [apply emits_write_upload; intros k Hk; exact Hk |].
    intros e. apply emits_raise. }
  intros _. apply emits_bind; [| intros pdf; apply Hproxy].
  apply emits_try.
  - apply emits_convert_pptx_to_pdf; intros k Hk; exact Hk.
  - intros e. apply emits_bind; [| intros; apply emits_raise].
    apply emits__cleanup_paths. intros k Hk. exact Hk.
Qed.

End Proxy.

(** C5.  When the resolved destination starts with neither [http://] nor
    [https://], the proxy step fails with status 400 and leaves the world as
    it found it; and the whole of [convert_and_parse], however far it gets,
    posts nothing: the posts on the trace are those that were there. *)
Theorem malformed_destination_rejected
    (E : Env) (file : UploadFile) (fname : string) (inp pdf : Path)
    (a : ParseArgs) (w : World) :
  Spec.has_scheme
    (py_or_else (py_or (parser_url a) (x_parser_url a)) (_effective_parser_url E))
  = false ->
  proxy_step E fname inp pdf a w
  = (inl (HTTPException 400 "parser_url must start with http:// or https://"), w)
  /\ (forall r w',
         convert_and_parse E file a w = (r, w') ->
         posts_of (trace w') = posts_of (trace w)).
Proof.
  intros Hbad. split; [apply proxy_step_bad_url, Hbad |].
  intros r w' Hrun.
  assert (Hoff : emits (fun ev => ~ is_post ev) (convert_and_parse E file a)).
  { apply convert_and_parse_offline. intros f i p w0 r0 w0' H0.
    rewrite (proxy_step_bad_url E f i p a w0 Hbad) in H0.
    injection H0 as <- <-. emits_none. }
  destruct (Hoff _ _ _ Hrun) as (evs & -> & Hq).
  rewrite posts_of_app, (posts_of_quiet _ Hq). apply app_nil_r.
Qed.

Lemma malformed_destination_rejected_witness :
  proxy_step Sample.env0 "deck.pptx" Sample.stored_upload Sample.stored_pdf
    (Sample.with_parser_url (Some "ftp://host") Sample.args0) Sample.world1
  = (inl (HTTPException 400 "parser_url must start with http:// or https://"),
     Sample.world1)
  /\ (forall r w',
         convert_and_parse Sample.env0 Sample.deck
           (Sample.with_parser_url (Some "ftp://host") Sample.args0) Sample.world1
         = (r, w') ->
         posts_of (trace w') = posts_of (trace Sample.world1)).
Proof.
  apply (malformed_destination_rejected Sample.env0 Sample.deck "deck.pptx"
           Sample.stored_upload Sample.stored_pdf
           (Sample.with_parser_url (Some "ftp://host") Sample.args0) Sample.world1).
  vm_compute. reflexivity.
Defined.

Section Fallback.

Context (E : Env).

Lemma path_open_rb_ok p c w :
  fs w !! PathLib.str p = Some (File c) -> path_open_rb p w = (inr tt, w).
Proof.
  intros H. unfold path_open_rb, bind, path_read_bytes. rewrite H. reflexivity.
Qed.

Lemma client_post_ok rq resp w :
  http_post E (trace w) rq = inr resp ->
  client_post E rq w = (inr resp, with_fs w (fs w) [EvPost rq]).
Proof. intros H. unfold client_post. rewrite H. reflexivity. Qed.

Lemma client_post_fail rq e w :
  http_post E (trace w) rq = inl e ->
  client_post E rq w = (inl e, with_fs w (fs w) [EvPost rq]).
Proof. intros H. unfold client_post. rewrite H. reflexivity. Qed.

End Fallback.

(** C2, as amended.  Once the first post, with the file under [files], is
    answered: a status below 400 ends the step with that response and that
    single post; a status of 400 or more is followed by exactly one more
    post, equal to the first but for the field name [file].  If that second
    post is answered, the step yields the second response when its status is
    in 200..299 and the first response otherwise.  If the second post raises
    instead, no response is kept, the first one included: the step raises
    what the post raised. *)
Theorem fallback_field_name
    (E : Env) (pdf : Path) (dn url c : string)
    (params : option (gmap string string)) (form : list (string * string))
    (w : World) (resp1 : httpx_Response) :
  let part := (dn, PathLib.str pdf, "application/pdf") in
  let rq1 := mkPost url params form [("files", part)] [("accept", "application/json")] in
  let rq2 := mkPost url params form [("file", part)] [("accept", "application/json")] in
  let w1 := with_fs w (fs w) [EvPost rq1] in
  let w2 := with_fs w1 (fs w1) [EvPost rq2] in
  fs w !! PathLib.str pdf = Some (File c) ->
  http_post E (trace w) rq1 = inr resp1 ->
  ((status_code resp1 < 400)%Z ->
     post_for_parsing E pdf dn url params form w = (inr resp1, w1)
     /\ posts_of (trace w1) = posts_of (trace w) ++ [rq1])
  /\ ((400 <= status_code resp1)%Z ->
        posts_of (trace w2) = posts_of (trace w) ++ [rq1; rq2]
        /\ (forall resp2,
               http_post E (trace w1) rq2 = inr resp2 ->
               ((200 <= status_code resp2 < 300)%Z ->
                  post_for_parsing E pdf dn url params form w = (inr resp2, w2))
               /\ (~ (200 <= status_code resp2 < 300)%Z ->
                     post_for_parsing E pdf dn url params form w = (inr resp1, w2)))
        /\ (forall e,
               http_post E (trace w1) rq2 = inl e ->
               post_for_parsing E pdf dn url params form w = (inl e, w2))).
Proof.
  intros part rq1 rq2 w1 w2 Hpdf H1.
  assert (Hstart : post_for_parsing E pdf dn url params form w
                   = (if (400 <=? status_code resp1)%Z
                      then
                        path_open_rb pdf ;;;
                        resp2 <~ client_post E rq2 ;;
                        if (200 <=? status_code resp2)%Z && (status_code resp2 <? 300)%Z
                        then ret resp2 else ret resp1
                      else ret resp1) w1).
  { unfold post_for_parsing.
    rewrite (bind_ok _ _ _ _ _ (path_open_rb_ok pdf c w Hpdf)).
    rewrite (bind_ok _ _ _ _ _ (client_post_ok E rq1 resp1 w H1)). reflexivity. }
  split.
  - intros Hlt. split.
    + rewrite Hstart. replace (400 <=? status_code resp1)%Z with false; [reflexivity |].
      symmetry. apply Z.leb_gt. exact Hlt.
    + cbn [w1 with_fs trace]. rewrite posts_of_app. reflexivity.
  - intros Hge.
    assert (Hretry : post_for_parsing E pdf dn url params form w
                     = (resp2 <~ client_post E rq2 ;;
                        if (200 <=? status_code resp2)%Z && (status_code resp2 <? 300)%Z
                        then ret resp2 else ret resp1) w1).
    { rewrite Hstart. replace (400 <=? status_code resp1)%Z with true
        by (symmetry; apply Z.leb_le; exact Hge).
      exact (bind_ok (path_open_rb pdf) _ w1 tt w1 (path_open_rb_ok pdf c w1 Hpdf)). }
    split; [| split].
    + cbn [w2 w1 with_fs trace]. rewrite !posts_of_app, <- app_assoc. reflexivity.
    + intros resp2 H2. rewrite Hretry.
      rewrite (bind_ok _ _ _ _ _ (client_post_ok E rq2 resp2 w1 H2)).
      split.
      * intros [Hlo Hhi].
        replace (200 <=? status_code resp2)%Z with true
          by (symmetry; apply Z.leb_le; exact Hlo).
        replace (status_code resp2 <? 300)%Z with true
          by (symmetry; apply Z.ltb_lt; exact Hhi).
        reflexivity.
      * intros Hout.
        destruct (200 <=? status_code resp2)%Z eqn:Hlo;
          destruct (status_code resp2 <? 300)%Z eqn:Hhi; try reflexivity.
        exfalso. apply Hout. split; [apply Z.leb_le | apply Z.ltb_lt]; assumption.
    + intros e H2. rewrite Hretry.
      apply bind_fail. apply client_post_fail. exact H2.
Qed.

Lemma fallback_field_name_witness :
  fst (post_for_parsing Sample.env0 Sample.stored_pdf "deck.pdf"
         "http://parser.example/file_parse" None [] Sample.world1)
  = inr (mkResp 200 "{}").
Proof.
  pose proof (fallback_field_name Sample.env0 Sample.stored_pdf "deck.pdf"
                "http://parser.example/file_parse" "%PDF-1.4" None []
                Sample.world1 (mkResp 400 "Bad Request")) as H.
  cbv zeta in H.
  destruct (H ltac:(vm_compute; reflexivity) ltac:(vm_compute; reflexivity))
    as [_ Hge].
  destruct (Hge ltac:(cbn; lia)) as (_ & Hresp & _).
  destruct (Hresp (mkResp 200 "{}") ltac:(vm_compute; reflexivity)) as [Hin _].
  rewrite (Hin ltac:(cbn; lia)). reflexivity.
Defined.

(** C2 as worded fails: the first post is answered with status 400, the
    retry times out, and the first response is not kept; the client block
    raises, and the request ends in a gateway error. *)
Lemma retry_failure_drops_first_response :
  let part := ("deck.pdf", PathLib.str Sample.stored_pdf, "application/pdf") in
  let rq field :=
    mkPost default_parser_url None (form_fields Sample.args0) [(field, part)]
      [("accept", "application/json")] in
  let posted :=
    post_for_parsing Cases.env_flaky Sample.stored_pdf "deck.pdf"
      default_parser_url None (form_fields Sample.args0) Sample.world1 in
  http_post Cases.env_flaky (trace Sample.world1) (rq "files")
  = inr (mkResp 400 "{}")
  /\ fst posted = inl (RuntimeError "The read operation timed out")
  /\ fst posted <> inr (mkResp 400 "{}")
  /\ posts_of (trace (snd posted)) = [rq "files"; rq "file"]
  /\ fst (proxy_step Cases.env_flaky "deck.pptx" Sample.stored_upload
            Sample.stored_pdf Sample.args0 Sample.world1)
     = inl (HTTPException 502 "Failed to call parser: The read operation timed out").
Proof.
  cbv zeta. split; [vm_compute; reflexivity |].
  split; [vm_compute; reflexivity |].
  split; [vm_compute; discriminate |].
  split; vm_compute; reflexivity.
Qed.

(** ** The response relay *)






(** ** Names: what the caller sees and what is stored *)

Lemma post_carries_split (dn path : string) (evs : list event) :
  Forall (post_carries dn path) evs ->
  writes_of evs = [] /\ carry_file dn path (posts_of evs).
Proof.
  unfold carry_file.
  induction 1 as [| ev evs Hev _ [IHw IHp]]; [split; [reflexivity | constructor] |].
  destruct ev; cbn in Hev |- *; try (split; assumption).
  - contradiction.
  - split; [assumption |]. constructor; assumption.
Qed.

Section Names.

Context (E : Env).


Lemma emits_resolve_parser_url Q q h : emits Q (_resolve_parser_url E q h).
Proof.
  intros w r w' H. rewrite resolve_checked in H. injection H as _ <-.
  emits_none.
Qed.

Lemma emits_parser_query_params Q items : emits Q (_parser_query_params items).
Proof.
  unfold _parser_query_params.
  destruct (_parser_query_params_from items ∅); [apply emits_raise | apply emits_ret].
Qed.

Lemma emits_new_JSONResponse Q sc content :
  emits Q (new_JSONResponse E sc content).
Proof.
  unfold new_JSONResponse.
  destruct (render_json E content); [apply emits_raise | apply emits_ret].
Qed.

Lemma emits_post_for_parsing pdf dn url params form :
  emits (post_carries dn (PathLib.str pdf))
    (post_for_parsing E pdf dn url params form).
Proof.
  unfold post_for_parsing.
  apply emits_bind; [apply emits_path_open_rb |]. intros _.
  apply emits_bind; [apply emits_client_post; cbn; eauto |]. intros resp.
  apply emits_if; [| apply emits_ret].
  apply emits_bind; [apply emits_path_open_rb |]. intros _.
  apply emits_bind; [apply emits_client_post; cbn; eauto |]. intros resp2.
  apply emits_if; apply emits_ret.
Qed.

Lemma emits_proxy_step fname inp pdf a :
  emits (post_carries (PathLib.stem (PathLib.of_str fname) +:+ ".pdf")
           (PathLib.str pdf))
    (proxy_step E fname inp pdf a).
Proof.
  unfold proxy_step.
  apply emits_bind; [apply emits_resolve_parser_url |]. intros url.
  apply emits_bind; [apply emits_parser_query_params |]. intros qp.
  apply emits_try.
  - apply emits_bind; [apply emits_post_for_parsing |]. intros resp.
    apply emits_bind.
    { destruct (json_loads E (text resp)); [apply emits_ret | apply emits_raise]. }
    intros payload.
    apply emits_bind; [apply emits_add_task | intros; apply emits_new_JSONResponse].
  - intros e.
    assert (Hc : emits (post_carries (PathLib.stem (PathLib.of_str fname) +:+ ".pdf")
                          (PathLib.str pdf))
                       (_cleanup_paths E [inp; pdf])).
    { apply emits__cleanup_paths. intros k. exact I. }
    destruct e; (apply emits_bind; [exact Hc | intros; apply emits_raise]).
Qed.

(** The handlers around the conversion re-raise: only a conversion that
    succeeded lets the endpoint go on. *)
Lemma cleanup_then_raise_inv {A} ps e w (a : A) w' :
  (_cleanup_paths E ps ;;; raise e) w <> (inr a, w').
Proof. apply then_raise_never_returns. Qed.

Lemma stored_paths n ext :
  allowed_ext ext = true ->
  expected_pdf (UPLOAD_DIR E // (Str.uuid_hex n +:+ ext)) (OUTPUT_DIR E)
  = OUTPUT_DIR E // (Str.uuid_hex n +:+ ".pdf").
Proof.
  intros Hext. unfold expected_pdf.
  destruct (upload_path_stem (UPLOAD_DIR E) n ext Hext) as [-> _]. reflexivity.
Qed.

End Names.


Section StoredNames.

Context (E : Env).


Lemma path_read_bytes_world p w r w' :
  path_read_bytes p w = (r, w') -> w' = w.
Proof.
  unfold path_read_bytes.
  destruct (fs w !! PathLib.str p) as [[| c] |]; intros H;
    injection H as _ <-; reflexivity.
Qed.

Lemma post_for_parsing_fs pdf dn url params form w r w' :
  post_for_parsing E pdf dn url params form w = (r, w') -> fs w' = fs w.
Proof.
  unfold post_for_parsing, path_open_rb, bind, client_post, ret.
  destruct (path_read_bytes pdf w) as [[e | c] w1] eqn:H1;
    apply path_read_bytes_world in H1 as ->;
    [intros H; injection H as _ <-; reflexivity |].
  destruct (http_post E (trace w) _) as [e | resp];
    [intros H; injection H as _ <-; reflexivity |].
  destruct (400 <=? status_code resp)%Z;
    [| intros H; injection H as _ <-; reflexivity].
  match goal with
  | |- context [path_read_bytes pdf ?w0] =>
      destruct (path_read_bytes pdf w0) as [[e | c'] w1] eqn:H1;
      apply path_read_bytes_world in H1 as ->
  end; [intros H; injection H as _ <-; reflexivity |].
  match goal with
  | |- context [http_post E ?t ?rq] =>
      destruct (http_post E t rq) as [e | resp2]
  end; [intros H; injection H as _ <-; reflexivity |].
  destruct ((200 <=? status_code resp2)%Z && (status_code resp2 <? 300)%Z);
    intros H; injection H as _ <-; reflexivity.
Qed.

(** A proxy step that returns a response leaves the files as they were. *)
Lemma proxy_step_success_fs fname inp pdf a w r w' :
  proxy_step E fname inp pdf a w = (inr r, w') -> fs w' = fs w.
Proof.
  unfold proxy_step. intros H.
  apply bind_inr_inv in H as (url & w1 & Hurl & H).
  rewrite resolve_checked in Hurl. injection Hurl as _ <-.
  apply bind_inr_inv in H as (qp & w2 & Hq & H).
  unfold _parser_query_params in Hq.
  destruct (_parser_query_params_from (query_items a) ∅); [discriminate |].
  injection Hq as _ <-.
  apply try_except_inr_inv in H.
  2:{ intros e w3 a1 w4. destruct e; apply cleanup_then_raise_inv. }
  apply bind_inr_inv in H as (resp & w3 & Hpost & H).
  apply post_for_parsing_fs in Hpost.
  apply bind_inr_inv in H as (payload & w4 & Hj & H).
  destruct (json_loads E (text resp)); [| discriminate].
  injection Hj as _ <-.
  apply bind_inr_inv in H as ([] & w5 & Ht & H). injection Ht as <-.
  unfold new_JSONResponse in H.
  destruct (render_json E payload); [discriminate |].
  injection H as _ <-. exact Hpost.
Qed.



End StoredNames.



(** ** The lifecycle of the artifacts *)

(** On the paths that clean up, each artifact is unlinked once: after the
    response is sent when the request succeeds, before the error is sent when
    the destination answers in plain text. *)
Example success_cleans_up_once :
  let served :=
    serve Sample.env0 (convert_and_parse Sample.env0 Sample.deck Sample.args0)
      Sample.world0 in
  fst served = inr (JSONResponse 200 (JObject []))
  /\ artifact_events (trace (snd served))
     = [EvOpenWrite "/srv/app/data/uploads/000000000000000000000000deadbeef.pptx";
        EvSent;
        EvUnlink "/srv/app/data/uploads/000000000000000000000000deadbeef.pptx";
        EvUnlink "/srv/app/data/outputs/000000000000000000000000deadbeef.pdf"]
  /\ fs (snd served) !! "/srv/app/data/uploads/000000000000000000000000deadbeef.pptx"
     = None
  /\ fs (snd served) !! "/srv/app/data/outputs/000000000000000000000000deadbeef.pdf"
     = None.
Proof. vm_compute. repeat split. Qed.

Example gateway_error_cleans_up_once :
  let served :=
    serve Sample.env_broken
      (convert_and_parse Sample.env_broken Sample.deck Sample.args0)
      Sample.world0 in
  fst served
  = inl (HTTPException 502
           "Downstream returned non-JSON (status 500). Snippet: Internal Error")
  /\ artifact_events (trace (snd served))
     = [EvOpenWrite "/srv/app/data/uploads/000000000000000000000000deadbeef.pptx";
        EvUnlink "/srv/app/data/uploads/000000000000000000000000deadbeef.pptx";
        EvUnlink "/srv/app/data/outputs/000000000000000000000000deadbeef.pdf";
        EvSent].
Proof. vm_compute. repeat split. Qed.

Example failed_conversion_cleans_upload :
  let served :=
    serve Sample.env_silent (convert Sample.env_silent Sample.deck) Sample.world0 in
  fst served
  = inl (HTTPException 500
           "Expected PDF not found: /srv/app/data/outputs/000000000000000000000000deadbeef.pdf")
  /\ artifact_events (trace (snd served))
     = [EvOpenWrite "/srv/app/data/uploads/000000000000000000000000deadbeef.pptx";
        EvUnlink "/srv/app/data/uploads/000000000000000000000000deadbeef.pptx";
        EvSent].
Proof. vm_compute. repeat split. Qed.

(** An upload whose copy fails is left on disk, truncated: the handler of
    that failure raises without cleaning up. *)
Example failed_copy_leaves_partial_upload :
  let served :=
    serve Sample.env_disk_full (convert Sample.env_disk_full Sample.deck)
      Sample.world0 in
  fst served
  = inl (HTTPException 500 "Failed to save upload: No space left on device")
  /\ artifact_events (trace (snd served))
     = [EvOpenWrite "/srv/app/data/uploads/000000000000000000000000deadbeef.pptx";
        EvSent]
  /\ fs (snd served) !! "/srv/app/data/uploads/000000000000000000000000deadbeef.pptx"
     = Some (File "").
Proof. vm_compute. repeat split. Qed.

(** C1 does not hold of the code.  The request
    [POST /convert_and_parse?parser_url=ftp://host] with a valid deck is
    stored and converted, then refused with status 400 by
    [_resolve_parser_url], which [convert_and_parse] calls outside of any
    [try]: nothing is unlinked, no cleanup is queued, and the stored upload
    and the converted PDF both remain on disk once the error is sent. *)
Theorem rejected_destination_leaks_artifacts :
  let served :=
    serve Sample.env0
      (convert_and_parse Sample.env0 Sample.deck
         (Sample.with_parser_url (Some "ftp://host") Sample.args0))
      Sample.world0 in
  fst served
  = inl (HTTPException 400 "parser_url must start with http:// or https://")
  /\ artifact_events (trace (snd served))
     = [EvOpenWrite "/srv/app/data/uploads/000000000000000000000000deadbeef.pptx";
        EvSent]
  /\ background (snd served) = []
  /\ fs (snd served) !! "/srv/app/data/uploads/000000000000000000000000deadbeef.pptx"
     = Some (File "PK-slides")
  /\ fs (snd served) !! "/srv/app/data/outputs/000000000000000000000000deadbeef.pdf"
     = Some (File "%PDF-1.4").
Proof. vm_compute. repeat split. Qed.

(** The same happens when a query item is the reserved prefix alone:
    [_parser_query_params] raises outside of the [try] as well. *)
Example empty_query_name_leaks_artifacts :
  let served :=
    serve Sample.env0
      (convert_and_parse Sample.env0 Sample.deck
         (Sample.with_query_items [("parser_query_", "1")] Sample.args0))
      Sample.world0 in
  fst served = inl (HTTPException 400 "parser_query_ prefix requires a field name")
  /\ artifact_events (trace (snd served))
     = [EvOpenWrite "/srv/app/data/uploads/000000000000000000000000deadbeef.pptx";
        EvSent]
  /\ fs (snd served) !! "/srv/app/data/uploads/000000000000000000000000deadbeef.pptx"
     = Some (File "PK-slides")
  /\ fs (snd served) !! "/srv/app/data/outputs/000000000000000000000000deadbeef.pdf"
     = Some (File "%PDF-1.4").
Proof. vm_compute. repeat split. Qed.

(** * Further properties of the code *)

(** ** Forwarded query parameters *)

Lemma append_nil_r (s : string) : s +:+ "" = s.
Proof.
  induction s as [| a s IH]; [reflexivity |].
  rewrite append_cons, IH. reflexivity.
Qed.

Lemma truthy_false (s : string) : Str.truthy s = false <-> s = "".
Proof. destruct s; cbn; split; congruence. Qed.

Lemma prefix_decompose (p s : string) :
  String.prefix p s = true -> s = p +:+ Str.drop (String.length p) s.
Proof.
  revert s. induction p as [| a p IH]; intros s H.
  - destruct s; reflexivity.
  - destruct s as [| b s]; cbn [String.prefix] in H; [discriminate |].
    destruct (ascii_dec a b) as [-> |]; [| discriminate].
    rewrite append_cons. cbn [String.length Str.drop]. f_equal. apply IH, H.
Qed.

Lemma prefix_append (p t : string) : String.prefix p (p +:+ t) = true.
Proof.
  induction p as [| a p IH]; [rewrite append_nil; destruct t; reflexivity |].
  rewrite append_cons. cbn [String.prefix].
  destruct (ascii_dec a a); [exact IH | congruence].
Qed.

Lemma append_inj_l (p s t : string) : p +:+ s = p +:+ t -> s = t.
Proof.
  intros H. rewrite <- (drop_append p s), <- (drop_append p t), H. reflexivity.
Qed.

(** A prefixed key is the prefix followed by the field name it is trimmed to;
    a key that is not prefixed is no such thing. *)
Lemma prefixed_key (key : string) :
  Str.startswith key parser_query_prefix = true ->
  key = parser_query_prefix
        +:+ Str.drop (String.length parser_query_prefix) key.
Proof. apply prefix_decompose. Qed.

Lemma unprefixed_key (key k : string) :
  Str.startswith key parser_query_prefix = false ->
  key <> parser_query_prefix +:+ k.
Proof.
  intros H ->. unfold Str.startswith in H. rewrite prefix_append in H.
  discriminate.
Qed.

Lemma query_params_from_error items acc e :
  _parser_query_params_from items acc = inl e ->
  e = query_error /\ exists v, In (parser_query_prefix, v) items.
Proof.
  revert acc. induction items as [| [key value] rest IH]; intros acc H.
  - discriminate.
  - cbn [_parser_query_params_from] in H.
    destruct (Str.startswith key parser_query_prefix) eqn:Hp; cbn [negb] in H.
    + destruct (Str.truthy (Str.drop (String.length parser_query_prefix) key))
        eqn:Ht; cbn [negb] in H.
      * destruct (IH _ H) as (-> & v & Hv). split; [reflexivity |].
        exists v. right. exact Hv.
      * injection H as <-. split; [reflexivity |]. exists value. left.
        apply truthy_false in Ht. rewrite (prefixed_key key Hp) at 1.
        rewrite Ht, append_nil_r. reflexivity.
    + destruct (IH _ H) as (-> & v & Hv). split; [reflexivity |].
      exists v. right. exact Hv.
Qed.

Lemma query_params_from_bare_prefix items acc v :
  In (parser_query_prefix, v) items ->
  _parser_query_params_from items acc = inl query_error.
Proof.
  revert acc. induction items as [| [key value] rest IH]; intros acc Hin.
  - destruct Hin.
  - cbn [_parser_query_params_from].
    destruct Hin as [Heq | Hin].
    + injection Heq as -> ->. reflexivity.
    + destruct (Str.startswith key parser_query_prefix); cbn [negb];
        [| apply IH, Hin].
      destruct (Str.truthy _); cbn [negb]; [apply IH, Hin | reflexivity].
Qed.

(** X1.  [_parser_query_params] fails exactly when some query item has the
    reserved prefix alone as its key; the error is then the 400 of line 89,
    wherever the item stands, and the world is untouched. *)
Theorem query_params_rejected_iff (items : list (string * string)) (w : World) :
  (exists v, In (parser_query_prefix, v) items)
  <-> _parser_query_params items w = (inl query_error, w).
Proof.
  unfold _parser_query_params. split.
  - intros [v Hv]. rewrite (query_params_from_bare_prefix items ∅ v Hv).
    reflexivity.
  - destruct (_parser_query_params_from items ∅) as [e | qp] eqn:H.
    + intros _. apply (query_params_from_error _ _ _ H).
    + discriminate.
Qed.

(** What the loop leaves under the field name [k]: the value of the last
    item whose key is the prefix followed by [k], and failing any such item
    what the dictionary held before. *)
Lemma query_params_from_lookup items acc qp k v :
  _parser_query_params_from items acc = inr qp ->
  qp !! k = Some v <->
  (exists before after,
      items = before ++ (parser_query_prefix +:+ k, v) :: after
      /\ forall v', ~ In (parser_query_prefix +:+ k, v') after)
  \/ (acc !! k = Some v /\ forall v', ~ In (parser_query_prefix +:+ k, v') items).
Proof.
  revert acc. induction items as [| [key value] rest IH]; intros acc H.
  - injection H as <-. split.
    + intros Hk. right. split; [exact Hk | intros v' []].
    + intros [(before & after & Heq & _) | [Hk _]]; [| exact Hk].
      destruct before; discriminate.
  - cbn [_parser_query_params_from] in H.
    assert (Hshift : forall acc',
      _parser_query_params_from rest acc' = inr qp ->
      (acc' !! k = Some v /\ (forall v', ~ In (parser_query_prefix +:+ k, v') rest)
       <-> (key = parser_query_prefix +:+ k /\ value = v
            /\ forall v', ~ In (parser_query_prefix +:+ k, v') rest)
           \/ (key <> parser_query_prefix +:+ k /\ acc !! k = Some v
               /\ forall v', ~ In (parser_query_prefix +:+ k, v') rest)) ->
      qp !! k = Some v <->
      (exists before after,
          (key, value) :: rest = before ++ (parser_query_prefix +:+ k, v) :: after
          /\ forall v', ~ In (parser_query_prefix +:+ k, v') after)
      \/ (acc !! k = Some v
          /\ forall v', ~ In (parser_query_prefix +:+ k, v') ((key, value) :: rest))).
    { intros acc' Hrest Hacc. rewrite (IH acc' Hrest). split.
      - intros [(before & after & -> & Hno) | Hold].
        + left. exists ((key, value) :: before), after. split; [reflexivity | exact Hno].
        + apply Hacc in Hold as [(-> & -> & Hno) | (Hne & Hk & Hno)].
          * left. exists [], rest. split; [reflexivity | exact Hno].
          * right. split; [exact Hk |]. intros v' [Heq | Hin].
            -- injection Heq as Heq _. contradiction.
            -- exact (Hno v' Hin).
      - intros [(before & after & Heq & Hno) | [Hk Hno]].
        + destruct before as [| b before]; cbn [app] in Heq.
          * injection Heq as -> -> ->. right. apply Hacc. left. auto.
          * injection Heq as _ ->. left. exists before, after. auto.
        + right. apply Hacc. right. split; [| split; [exact Hk |]].
          * intros ->. apply (Hno value). left. reflexivity.
          * intros v' Hin. apply (Hno v'). right. exact Hin. }
    destruct (Str.startswith key parser_query_prefix) eqn:Hp; cbn [negb] in H.
    + destruct (Str.truthy (Str.drop (String.length parser_query_prefix) key))
        eqn:Ht; cbn [negb] in H; [| discriminate].
      apply (Hshift _ H). pose proof (prefixed_key key Hp) as Hkey.
      destruct (decide (Str.drop (String.length parser_query_prefix) key = k))
        as [Hk | Hk].
      * rewrite Hk in *. rewrite lookup_insert_eq. split.
        -- intros [Hv Hno]. injection Hv as ->. left. auto.
        -- intros [(_ & -> & Hno) | (Hne & _)]; [auto | contradiction].
      * rewrite lookup_insert_ne by exact Hk. split.
        -- intros [Hv Hno]. right. split; [| auto].
           intros Heq. apply Hk. rewrite Heq at 1. apply drop_append.
        -- intros [(Heq & _) | (_ & Hv & Hno)]; [| auto].
           exfalso. apply Hk. rewrite Heq at 1. apply drop_append.
    + apply (Hshift _ H). pose proof (unprefixed_key key k Hp) as Hne. split.
      * intros [Hv Hno]. right. auto.
      * intros [(Heq & _) | (_ & Hv & Hno)]; [contradiction | auto].
Qed.

(** X2.  When [_parser_query_params] succeeds, the dictionary it returns
    holds [v] under [k] exactly when the last query item whose key is
    [parser_query_] followed by [k] has the value [v]: keys are forwarded
    with the prefix stripped, the last occurrence of a field wins, and items
    without the prefix are ignored. *)
Theorem query_params_lookup
    (items : list (string * string)) (w w' : World)
    (qp : gmap string string) (k v : string) :
  _parser_query_params items w = (inr qp, w') ->
  w' = w
  /\ (qp !! k = Some v <->
      exists before after,
        items = before ++ (parser_query_prefix +:+ k, v) :: after
        /\ forall v', ~ In (parser_query_prefix +:+ k, v') after).
Proof.
  unfold _parser_query_params.
  destruct (_parser_query_params_from items ∅) as [e | qp'] eqn:H; [discriminate |].
  intros Heq. injection Heq as -> <-. split; [reflexivity |].
  rewrite (query_params_from_lookup _ _ _ k v H). split.
  - intros [Hl | [Hempty _]]; [exact Hl |].
    rewrite lookup_empty in Hempty. discriminate.
  - intros Hl. left. exact Hl.
Qed.

Lemma query_params_lookup_witness :
  exists qp,
    _parser_query_params
      [("parser_query_lang", "en"); ("page", "2"); ("parser_query_lang", "fr")]
      Sample.world0 = (inr qp, Sample.world0)
    /\ qp !! "lang" = Some "fr".
Proof.
  exists (<["lang" := "fr"]> (<["lang" := "en"]> ∅)).
  assert (H : _parser_query_params
                [("parser_query_lang", "en"); ("page", "2"); ("parser_query_lang", "fr")]
                Sample.world0
              = (inr (<["lang" := "fr"]> (<["lang" := "en"]> ∅)), Sample.world0))
    by reflexivity.
  split; [exact H |].
  apply (proj2 (query_params_lookup _ _ _ _ "lang" "fr" H)).
  exists [("parser_query_lang", "en"); ("page", "2")], []. split.
  - reflexivity.
  - intros v' [].
Defined.

(** ** What cleanup does *)

Section CleanupEffect.

Context (E : Env).

Lemma cleanup_one_after p w :
  try_except
    (e <~ path_exists p ;; if e then path_unlink E p else ret tt)
    (fun _ => ret tt) w
  = (inr tt, after_unlink E w p).
Proof.
  unfold try_except, bind, path_exists, path_unlink, after_unlink, ret.
  destruct (fs w !! PathLib.str p) as [[| c] |] eqn:Hk; try reflexivity.
  - rewrite Hk. reflexivity.
  - rewrite Hk. destruct (unlink_err E (PathLib.str p)); reflexivity.
Qed.

Lemma cleanup_paths_fold ps w :
  _cleanup_paths E ps w = (inr tt, fold_left (after_unlink E) ps w).
Proof.
  unfold _cleanup_paths. revert w. induction ps as [| p ps IH]; intros w.
  - reflexivity.
  - cbn [for_each fold_left].
    rewrite (bind_ok _ _ _ _ _ (cleanup_one_after p w)). apply IH.
Qed.

(** One turn deletes at most the path it is given, and only a regular file. *)
Lemma after_unlink_lookup w p k :
  fs (after_unlink E w p) !! k
  = if decide (k = PathLib.str p)
    then match fs w !! k with
         | Some (File c) =>
             match unlink_err E k with None => None | Some _ => Some (File c) end
         | o => o
         end
    else fs w !! k.
Proof.
  unfold after_unlink. destruct (decide (k = PathLib.str p)) as [-> | Hne].
  - destruct (fs w !! PathLib.str p) as [[| c] |] eqn:Hk; rewrite ?Hk; try reflexivity.
    destruct (unlink_err E (PathLib.str p)); [exact Hk |].
    cbn [with_fs fs]. apply lookup_delete_eq.
  - destruct (fs w !! PathLib.str p) as [[| c] |]; try reflexivity.
    destruct (unlink_err E (PathLib.str p)); [reflexivity |].
    cbn [with_fs fs]. apply lookup_delete_ne. congruence.
Qed.

Lemma after_unlink_frame w p :
  background (after_unlink E w p) = background w
  /\ uuid_ctr (after_unlink E w p) = uuid_ctr w.
Proof.
  unfold after_unlink. destruct (fs w !! PathLib.str p) as [[| c] |]; auto.
  destruct (unlink_err E (PathLib.str p)); auto.
Qed.

(** Nothing is created or altered: what is on disk afterwards was there. *)
Lemma fold_unlink_sub ps w k n :
  fs (fold_left (after_unlink E) ps w) !! k = Some n -> fs w !! k = Some n.
Proof.
  revert w. induction ps as [| p ps IH]; intros w H; [exact H |].
  cbn [fold_left] in H. apply IH in H. rewrite after_unlink_lookup in H.
  destruct (decide (k = PathLib.str p)); [| exact H].
  destruct (fs w !! k) as [[| c] |]; try exact H.
  destruct (unlink_err E k); [exact H | discriminate].
Qed.

Lemma fold_unlink_other ps w k :
  ~ In k (map PathLib.str ps) ->
  fs (fold_left (after_unlink E) ps w) !! k = fs w !! k.
Proof.
  revert w. induction ps as [| p ps IH]; intros w Hk; [reflexivity |].
  cbn [fold_left]. cbn [map In] in Hk. rewrite IH by tauto.
  rewrite after_unlink_lookup. destruct (decide (k = PathLib.str p)); [| reflexivity].
  exfalso. apply Hk. left. congruence.
Qed.

Lemma fold_unlink_dir ps w k :
  fs w !! k = Some Dir -> fs (fold_left (after_unlink E) ps w) !! k = Some Dir.
Proof.
  revert w. induction ps as [| p ps IH]; intros w Hk; [exact Hk |].
  cbn [fold_left]. apply IH. rewrite after_unlink_lookup, Hk.
  destruct (decide (k = PathLib.str p)); reflexivity.
Qed.

Lemma fold_unlink_absent ps w k :
  fs w !! k = None -> fs (fold_left (after_unlink E) ps w) !! k = None.
Proof.
  intros Hk. destruct (fs (fold_left (after_unlink E) ps w) !! k) as [n |] eqn:H;
    [| reflexivity].
  apply fold_unlink_sub in H. congruence.
Qed.

Lemma fold_unlink_removed ps w p c :
  In p ps -> fs w !! PathLib.str p = Some (File c) ->
  unlink_err E (PathLib.str p) = None ->
  fs (fold_left (after_unlink E) ps w) !! PathLib.str p = None.
Proof.
  revert w. induction ps as [| q ps IH]; intros w Hin Hk Hu; [destruct Hin |].
  cbn [fold_left].
  destruct (decide (PathLib.str p = PathLib.str q)) as [Heq | Hne].
  - apply fold_unlink_absent. rewrite after_unlink_lookup.
    rewrite decide_True by exact Heq. rewrite Hk, Hu. reflexivity.
  - destruct Hin as [-> | Hin]; [congruence |].
    apply IH; [exact Hin | | exact Hu].
    rewrite after_unlink_lookup, decide_False by exact Hne. exact Hk.
Qed.

Lemma fold_unlink_frame ps w :
  background (fold_left (after_unlink E) ps w) = background w
  /\ uuid_ctr (fold_left (after_unlink E) ps w) = uuid_ctr w.
Proof.
  revert w. induction ps as [| p ps IH]; intros w; [auto |].
  cbn [fold_left]. destruct (IH (after_unlink E w p)) as [-> ->].
  apply after_unlink_frame.
Qed.

(** A world in which every path of [ps] is absent, a directory, or a file
    that cannot be deleted, is left as it is. *)
Lemma fold_unlink_settled ps w :
  (forall p, In p ps -> after_unlink E w p = w) ->
  fold_left (after_unlink E) ps w = w.
Proof.
  induction ps as [| p ps IH]; intros H; [reflexivity |].
  cbn [fold_left]. rewrite (H p) by (left; reflexivity).
  apply IH. intros q Hq. apply H. right. exact Hq.
Qed.

End CleanupEffect.

(** X3.  [_cleanup_paths] touches the paths it is given and nothing else:
    every other entry of the file system is as before, directories stay,
    nothing is created or rewritten, the background queue and the random
    source are not used; and a regular file among the paths whose deletion
    does not fail is gone afterwards. *)
Theorem cleanup_effect (E : Env) (ps : list Path) (w : World) :
  let w' := snd (_cleanup_paths E ps w) in
  (forall k, ~ In k (map PathLib.str ps) -> fs w' !! k = fs w !! k)
  /\ (forall k, fs w !! k = Some Dir -> fs w' !! k = Some Dir)
  /\ (forall k n, fs w' !! k = Some n -> fs w !! k = Some n)
  /\ (forall p c,
         In p ps -> fs w !! PathLib.str p = Some (File c) ->
         unlink_err E (PathLib.str p) = None ->
         fs w' !! PathLib.str p = None)
  /\ background w' = background w
  /\ uuid_ctr w' = uuid_ctr w.
Proof.
  cbv zeta. rewrite cleanup_paths_fold. cbn [snd].
  split; [intros k; apply fold_unlink_other |].
  split; [intros k; apply fold_unlink_dir |].
  split; [intros k n; apply fold_unlink_sub |].
  split; [intros p c; apply fold_unlink_removed |].
  apply fold_unlink_frame.
Qed.

(** X4.  Cleanup is idempotent: run again on the world it produced, with
    the same paths, it changes nothing. *)
Theorem cleanup_idempotent (E : Env) (ps : list Path) (w : World) :
  let w' := snd (_cleanup_paths E ps w) in
  _cleanup_paths E ps w' = (inr tt, w').
Proof.
  cbv zeta. rewrite !cleanup_paths_fold. cbn [snd]. f_equal.
  apply fold_unlink_settled. intros p Hp.
  set (W := fold_left (after_unlink E) ps w).
  unfold after_unlink.
  destruct (fs W !! PathLib.str p) as [[| c] |] eqn:HW; try reflexivity.
  destruct (unlink_err E (PathLib.str p)) eqn:Hu; [reflexivity |].
  exfalso. pose proof (fold_unlink_sub E ps w _ _ HW) as Hw.
  pose proof (fold_unlink_removed E ps w p c Hp Hw Hu) as Hgone.
  fold W in Hgone. congruence.
Qed.

(** ** Failures of the proxy step *)

Section ProxyFailures.

Context (E : Env).

Lemma resolve_ok q h w :
  Spec.has_scheme (py_or_else (py_or q h) (_effective_parser_url E)) = true ->
  _resolve_parser_url E q h w
  = (inr (py_or_else (py_or q h) (_effective_parser_url E)), w).
Proof.
  intros H. rewrite resolve_checked. unfold Spec.checked. rewrite H. reflexivity.
Qed.

Lemma proxy_step_bare_prefix fname inp pdf a w v :
  In (parser_query_prefix, v) (query_items a) ->
  exists e, proxy_step E fname inp pdf a w = (inl e, w)
            /\ (Spec.has_scheme
                  (py_or_else (py_or (parser_url a) (x_parser_url a))
                     (_effective_parser_url E)) = true -> e = query_error).
Proof.
  intros Hin.
  destruct (Spec.has_scheme
              (py_or_else (py_or (parser_url a) (x_parser_url a))
                 (_effective_parser_url E))) eqn:Hs.
  - exists query_error. split; [| reflexivity]. unfold proxy_step.
    rewrite (bind_ok _ _ _ _ _ (resolve_ok _ _ w Hs)).
    apply bind_fail. unfold _parser_query_params.
    rewrite (query_params_from_bare_prefix _ ∅ v Hin). reflexivity.
  - eexists. split; [apply proxy_step_bad_url, Hs | discriminate].
Qed.

End ProxyFailures.

(** X5.  A query item whose key is the reserved prefix alone stops the
    proxy step before anything is sent: with a well-formed destination the
    step fails with the 400 of [_parser_query_params] and the world
    unchanged, and no run of [convert_and_parse] adds a post to the trace. *)
Theorem bare_prefix_rejected_offline
    (E : Env) (file : UploadFile) (fname v : string) (inp pdf : Path)
    (a : ParseArgs) (w : World) :
  In (parser_query_prefix, v) (query_items a) ->
  (Spec.has_scheme
     (py_or_else (py_or (parser_url a) (x_parser_url a)) (_effective_parser_url E))
   = true ->
   proxy_step E fname inp pdf a w = (inl query_error, w))
  /\ (forall r w',
         convert_and_parse E file a w = (r, w') ->
         posts_of (trace w') = posts_of (trace w)).
Proof.
  intros Hin. split.
  - intros Hs. destruct (proxy_step_bare_prefix E fname inp pdf a w v Hin)
      as (e & He & Hq). rewrite He, (Hq Hs). reflexivity.
  - intros r w' Hrun.
    assert (Hoff : emits (fun ev => ~ is_post ev) (convert_and_parse E file a)).
    { apply convert_and_parse_offline. intros f i p w0 r0 w0' H0.
      destruct (proxy_step_bare_prefix E f i p a w0 v Hin) as (e & He & _).
      rewrite He in H0. injection H0 as <- <-. emits_none. }
    destruct (Hoff _ _ _ Hrun) as (evs & -> & Hq).
    rewrite posts_of_app, (posts_of_quiet _ Hq). apply app_nil_r.
Qed.

Lemma bare_prefix_rejected_offline_witness :
  proxy_step Sample.env0 "deck.pptx" Sample.stored_upload Sample.stored_pdf
    (Sample.with_query_items [("parser_query_", "1")] Sample.args0) Sample.world1
  = (inl query_error, Sample.world1).
Proof.
  apply (proj1 (bare_prefix_rejected_offline Sample.env0 Sample.deck "deck.pptx" "1"
                  Sample.stored_upload Sample.stored_pdf
                  (Sample.with_query_items [("parser_query_", "1")] Sample.args0)
                  Sample.world1 ltac:(left; reflexivity))).
  vm_compute. reflexivity.
Defined.

(** X6.  When the first post raises (the destination cannot be reached),
    there is no second post: the proxy step runs cleanup on both artifacts
    and fails with status 502, "Failed to call parser: " followed by the
    text of the exception (an [HTTPException] would pass as it is). *)
Theorem unreachable_destination
    (E : Env) (fname c url : string) (inp pdf : Path) (a : ParseArgs)
    (qp : gmap string string) (w : World) (e : exn) :
  let rq1 :=
    mkPost url (or_none qp) (form_fields a)
      [("files", (PathLib.stem (PathLib.of_str fname) +:+ ".pdf",
                  PathLib.str pdf, "application/pdf"))]
      [("accept", "application/json")] in
  _resolve_parser_url E (parser_url a) (x_parser_url a) w = (inr url, w) ->
  _parser_query_params_from (query_items a) ∅ = inr qp ->
  fs w !! PathLib.str pdf = Some (File c) ->
  http_post E (trace w) rq1 = inl e ->
  exists w2,
    _cleanup_paths E [inp; pdf] (with_fs w (fs w) [EvPost rq1]) = (inr tt, w2)
    /\ proxy_step E fname inp pdf a w = (inl (parser_failure e), w2)
    /\ posts_of (trace w2) = posts_of (trace w) ++ [rq1].
Proof.
  intros rq1 Hurl Hq Hpdf Hpost.
  destruct (cleanup_returns E [inp; pdf] (with_fs w (fs w) [EvPost rq1]))
    as [w2 Hc].
  exists w2. split; [exact Hc |]. split.
  - unfold proxy_step. rewrite (bind_ok _ _ _ _ _ Hurl).
    unfold _parser_query_params. rewrite Hq, bind_ret.
    erewrite try_except_fail.
    2:{ apply bind_fail. unfold post_for_parsing.
        rewrite (bind_ok _ _ _ _ _ (path_open_rb_ok pdf c w Hpdf)).
        apply bind_fail. apply client_post_fail. exact Hpost. }
    destruct e; cbn [parser_failure]; rewrite (bind_ok _ _ _ _ _ Hc); reflexivity.
  - destruct (emits__cleanup_paths E (fun ev => ~ is_post ev) [inp; pdf]
                (fun k Hk => Hk) _ _ _ Hc) as (evs & -> & Hquiet).
    cbn [with_fs trace]. rewrite !posts_of_app, (posts_of_quiet _ Hquiet).
    rewrite app_nil_r. reflexivity.
Qed.

Lemma unreachable_destination_witness :
  fst (proxy_step Cases.env_unreachable "deck.pptx" Sample.stored_upload
         Sample.stored_pdf Sample.args0 Sample.world1)
  = inl (HTTPException 502 "Failed to call parser: All connection attempts failed").
Proof.
  unshelve epose proof
    (unreachable_destination Cases.env_unreachable "deck.pptx" "%PDF-1.4"
       default_parser_url Sample.stored_upload Sample.stored_pdf Sample.args0
       ∅ Sample.world1 (RuntimeError "All connection attempts failed") _ _ _ _)
    as (w2 & _ & H & _);
    [vm_compute; reflexivity .. |].
  rewrite H. reflexivity.
Defined.

(** ** Failures while storing and converting *)

Section EndpointFailures.

Context (E : Env).

Lemma uuid4_hex_run w :
  uuid4_hex E w = (inr (Str.uuid_hex (urandom E (uuid_ctr w))), next_uuid w).
Proof. reflexivity. Qed.

(** The three endpoints up to the stored upload: with a file name that
    passes both checks, each is its continuation run after the write. *)
Lemma convert_after_checks fname bytes w :
  Str.truthy fname = true -> allowed_ext (_safe_ext E fname) = true ->
  convert E (mkUpload (Some fname) bytes) w
  = (try_except
       (write_upload E (upload_path E w fname) bytes)
       (fun exc => raise (HTTPException 500 ("Failed to save upload: " +:+ exn_str exc))) ;;;
     pdf_path <~ try_except
       (convert_pptx_to_pdf E (upload_path E w fname) (OUTPUT_DIR E))
       (fun exc =>
          match exc with
          | FileNotFoundError _ =>
              _cleanup_paths E [upload_path E w fname] ;;;
              raise (HTTPException 500 (exn_str exc))
          | _ =>
              _cleanup_paths E [upload_path E w fname] ;;;
              raise (HTTPException 500 ("Conversion failed: " +:+ exn_str exc))
          end) ;;
     add_task [upload_path E w fname; pdf_path] ;;;
     ret (FileResponse (PathLib.str pdf_path) "application/pdf"
            (PathLib.stem (PathLib.of_str fname) +:+ ".pdf")))
      (next_uuid w).
Proof.
  intros Ht Hext. unfold convert. cbn [filename file_bytes py_truthy from_option id].
  rewrite Ht, Hext. cbn [negb].
  rewrite (bind_ok _ _ _ _ _ (uuid4_hex_run w)). reflexivity.
Qed.

Lemma convert_multipart_after_checks fname bytes w :
  Str.truthy fname = true -> allowed_ext (_safe_ext E fname) = true ->
  convert_multipart E (mkUpload (Some fname) bytes) w
  = (try_except
       (write_upload E (upload_path E w fname) bytes)
       (fun exc => raise (HTTPException 500 ("Failed to save upload: " +:+ exn_str exc))) ;;;
     converted <~ try_except
       (pdf_path <~ convert_pptx_to_pdf E (upload_path E w fname) (OUTPUT_DIR E) ;;
        pdf_bytes <~ path_read_bytes pdf_path ;;
        ret (pdf_path, pdf_bytes))
       (fun exc =>
          _cleanup_paths E [upload_path E w fname] ;;;
          raise (HTTPException 500 ("Conversion failed: " +:+ exn_str exc))) ;;
     let '(pdf_path, pdf_bytes) := converted in
     built <~ _build_multipart_file E "file"
                (PathLib.stem (PathLib.of_str fname) +:+ ".pdf")
                pdf_bytes "application/pdf" ;;
     let '(body, content_type_header) := built in
     add_task [upload_path E w fname; pdf_path] ;;;
     ret (Response body content_type_header))
      (next_uuid w).
Proof.
  intros Ht Hext. unfold convert_multipart.
  cbn [filename file_bytes py_truthy from_option id].
  rewrite Ht, Hext. cbn [negb].
  rewrite (bind_ok _ _ _ _ _ (uuid4_hex_run w)). reflexivity.
Qed.

Lemma convert_and_parse_after_checks fname bytes a w :
  Str.truthy fname = true -> allowed_ext (_safe_ext E fname) = true ->
  convert_and_parse E (mkUpload (Some fname) bytes) a w
  = (try_except
       (write_upload E (upload_path E w fname) bytes)
       (fun exc => raise (HTTPException 500 ("Failed to save upload: " +:+ exn_str exc))) ;;;
     pdf_path <~ try_except
       (convert_pptx_to_pdf E (upload_path E w fname) (OUTPUT_DIR E))
       (fun exc =>
          _cleanup_paths E [upload_path E w fname] ;;;
          raise (HTTPException 500 ("Conversion failed: " +:+ exn_str exc))) ;;
     proxy_step E fname (upload_path E w fname) pdf_path a)
      (next_uuid w).
Proof.
  intros Ht Hext. unfold convert_and_parse.
  cbn [filename file_bytes py_truthy from_option id].
  rewrite Ht, Hext. cbn [negb].
  rewrite (bind_ok _ _ _ _ _ (uuid4_hex_run w)). reflexivity.
Qed.

End EndpointFailures.

(** X7.  When the upload cannot be saved, each of the three endpoints fails
    with status 500, "Failed to save upload: " and the text of the
    exception; the conversion is not attempted, and the world is the one the
    failed write left (a file that [open] created stays). *)
Theorem failed_save_is_500
    (E : Env) (fname bytes : string) (a : ParseArgs) (w w2 : World) (e : exn) :
  Str.truthy fname = true ->
  allowed_ext (_safe_ext E fname) = true ->
  write_upload E (upload_path E w fname) bytes (next_uuid w) = (inl e, w2) ->
  let file := mkUpload (Some fname) bytes in
  let err := HTTPException 500 ("Failed to save upload: " +:+ exn_str e) in
  convert E file w = (inl err, w2)
  /\ convert_multipart E file w = (inl err, w2)
  /\ convert_and_parse E file a w = (inl err, w2).
Proof.
  intros Ht Hext Hw file err. subst file err.
  rewrite convert_after_checks, convert_multipart_after_checks,
    convert_and_parse_after_checks by assumption.
  repeat split; apply bind_fail; rewrite (try_except_fail _ _ _ _ _ Hw);
    reflexivity.
Qed.

Lemma failed_save_is_500_witness :
  convert Sample.env_disk_full Sample.deck Sample.world0
  = (inl (HTTPException 500 "Failed to save upload: No space left on device"),
     snd (write_upload Sample.env_disk_full
            (upload_path Sample.env_disk_full Sample.world0 "Quarterly Review.PPTX")
            "PK-slides" (next_uuid Sample.world0))).
Proof.
  apply (failed_save_is_500 Sample.env_disk_full "Quarterly Review.PPTX" "PK-slides"
           Sample.args0 Sample.world0 _ (OSError "No space left on device")).
  - reflexivity.
  - vm_compute. reflexivity.
  - vm_compute. reflexivity.
Defined.

(** X8.  When the conversion raises after the upload is stored, each
    endpoint runs cleanup on the upload alone and fails with status 500.
    The detail is "Conversion failed: " and the text of the exception,
    except that [convert] passes the text of a [FileNotFoundError] (no
    LibreOffice, no output file) as it is.  No background task is queued. *)
Theorem failed_conversion_is_500
    (E : Env) (fname bytes : string) (a : ParseArgs) (w w2 w3 : World) (e : exn) :
  Str.truthy fname = true ->
  allowed_ext (_safe_ext E fname) = true ->
  write_upload E (upload_path E w fname) bytes (next_uuid w) = (inr tt, w2) ->
  convert_pptx_to_pdf E (upload_path E w fname) (OUTPUT_DIR E) w2 = (inl e, w3) ->
  let file := mkUpload (Some fname) bytes in
  let w4 := snd (_cleanup_paths E [upload_path E w fname] w3) in
  convert E file w = (inl (HTTPException 500 (convert_failure_detail e)), w4)
  /\ convert_multipart E file w
     = (inl (HTTPException 500 ("Conversion failed: " +:+ exn_str e)), w4)
  /\ convert_and_parse E file a w
     = (inl (HTTPException 500 ("Conversion failed: " +:+ exn_str e)), w4)
  /\ background w4 = background w3.
Proof.
  intros Ht Hext Hw Hc file w4. subst file w4.
  pose proof (cleanup_paths_fold E [upload_path E w fname] w3) as Hclean.
  rewrite Hclean. cbn [snd].
  rewrite convert_after_checks, convert_multipart_after_checks,
    convert_and_parse_after_checks by assumption.
  split; [| split; [| split]].
  - rewrite (bind_ok _ _ _ _ _ (try_except_ok _ _ _ _ _ Hw)).
    apply bind_fail. rewrite (try_except_fail _ _ _ _ _ Hc).
    destruct e; cbn [convert_failure_detail];
      rewrite (bind_ok _ _ _ _ _ Hclean); reflexivity.
  - rewrite (bind_ok _ _ _ _ _ (try_except_ok _ _ _ _ _ Hw)).
    apply bind_fail. erewrite try_except_fail by (apply bind_fail; exact Hc).
    rewrite (bind_ok _ _ _ _ _ Hclean). reflexivity.
  - rewrite (bind_ok _ _ _ _ _ (try_except_ok _ _ _ _ _ Hw)).
    apply bind_fail. rewrite (try_except_fail _ _ _ _ _ Hc).
    rewrite (bind_ok _ _ _ _ _ Hclean). reflexivity.
  - apply fold_unlink_frame.
Qed.

Lemma failed_conversion_is_500_witness :
  fst (convert Cases.env_no_office Sample.deck Sample.world0)
  = inl (HTTPException 500 lo_not_found)
  /\ fst (convert_multipart Cases.env_no_office Sample.deck Sample.world0)
     = inl (HTTPException 500 ("Conversion failed: " +:+ lo_not_found)).
Proof.
  unshelve epose proof
    (failed_conversion_is_500 Cases.env_no_office "Quarterly Review.PPTX"
       "PK-slides" Sample.args0 Sample.world0
       (snd (write_upload Cases.env_no_office
               (upload_path Cases.env_no_office Sample.world0 "Quarterly Review.PPTX")
               "PK-slides" (next_uuid Sample.world0)))
       (snd (write_upload Cases.env_no_office
               (upload_path Cases.env_no_office Sample.world0 "Quarterly Review.PPTX")
               "PK-slides" (next_uuid Sample.world0)))
       (FileNotFoundError lo_not_found) _ _ _ _) as (H1 & H2 & _);
    [reflexivity | vm_compute; reflexivity .. |].
  cbv zeta in H1, H2.
  change Sample.deck with (mkUpload (Some "Quarterly Review.PPTX") "PK-slides").
  rewrite H1, H2. split; reflexivity.
Defined.

(** ** File names *)

Lemma lower_ascii_eqb_slash (c : ascii) :
  Ascii.eqb (Str.lower_ascii c) "/" = Ascii.eqb c "/".
Proof. destruct c as [[] [] [] [] [] [] [] []]; reflexivity. Qed.

Lemma lower_ascii_eqb_dot (c : ascii) :
  Ascii.eqb (Str.lower_ascii c) "." = Ascii.eqb c ".".
Proof. destruct c as [[] [] [] [] [] [] [] []]; reflexivity. Qed.

Lemma lower_ascii_idem (c : ascii) :
  Str.lower_ascii (Str.lower_ascii c) = Str.lower_ascii c.
Proof. destruct c as [[] [] [] [] [] [] [] []]; reflexivity. Qed.

Lemma lower_idem (s : string) : Str.lower (Str.lower s) = Str.lower s.
Proof.
  induction s as [| a s IH]; [reflexivity |].
  cbn [Str.lower]. rewrite lower_ascii_idem, IH. reflexivity.
Qed.

Lemma lower_length (s : string) : String.length (Str.lower s) = String.length s.
Proof.
  induction s as [| a s IH]; [reflexivity |].
  cbn [Str.lower String.length]. rewrite IH. reflexivity.
Qed.

Lemma lower_take (n : nat) (s : string) :
  Str.take n (Str.lower s) = Str.lower (Str.take n s).
Proof.
  revert s. induction n as [| n IH]; intros [| a s]; try reflexivity.
  cbn [Str.lower Str.take]. rewrite IH. reflexivity.
Qed.

Lemma lower_drop (n : nat) (s : string) :
  Str.drop n (Str.lower s) = Str.lower (Str.drop n s).
Proof.
  revert s. induction n as [| n IH]; intros [| a s]; try reflexivity.
  cbn [Str.lower Str.drop]. apply IH.
Qed.

Lemma lower_rfind_dot (s : string) :
  Str.rfind "." (Str.lower s) = Str.rfind "." s.
Proof.
  induction s as [| a s IH]; [reflexivity |].
  cbn [Str.lower Str.rfind]. rewrite IH, lower_ascii_eqb_dot. reflexivity.
Qed.

Lemma lower_split_slash (s : string) :
  Str.split "/" (Str.lower s) = map Str.lower (Str.split "/" s).
Proof.
  induction s as [| a s IH]; [reflexivity |].
  cbn [Str.lower Str.split]. rewrite IH, lower_ascii_eqb_slash.
  destruct (Ascii.eqb a "/"); [reflexivity |].
  destruct (Str.split "/" s); reflexivity.
Qed.

Lemma lower_eqb_slash (s : string) :
  String.eqb (Str.lower s) "/" = String.eqb s "/".
Proof.
  destruct s as [| a [| b t]]; try reflexivity.
  - cbn [Str.lower String.eqb]. rewrite lower_ascii_eqb_slash. reflexivity.
  - cbn [Str.lower String.eqb]. rewrite lower_ascii_eqb_slash. reflexivity.
Qed.

Lemma lower_keep_part (s : string) :
  PathLib.keep_part (Str.lower s) = PathLib.keep_part s.
Proof.
  unfold PathLib.keep_part.
  destruct s as [| a [| b t]]; try reflexivity;
    cbn [Str.lower String.eqb]; rewrite lower_ascii_eqb_dot; reflexivity.
Qed.

Lemma lower_filter_parts (l : list string) :
  List.filter PathLib.keep_part (map Str.lower l)
  = map Str.lower (List.filter PathLib.keep_part l).
Proof.
  induction l as [| x l IH]; [reflexivity |].
  cbn [map List.filter]. rewrite lower_keep_part, IH.
  destruct (PathLib.keep_part x); reflexivity.
Qed.

Lemma lower_of_str (s : string) :
  PathLib.of_str (Str.lower s)
  = mkPath (root (PathLib.of_str s)) (map Str.lower (parts (PathLib.of_str s))).
Proof.
  unfold PathLib.of_str, PathLib.splitroot.
  rewrite !lower_drop, !lower_take, !lower_eqb_slash.
  destruct (negb (String.eqb (Str.take 1 s) "/")).
  - cbn [root parts]. rewrite lower_split_slash, lower_filter_parts. reflexivity.
  - destruct (negb (String.eqb (Str.take 1 (Str.drop 1 s)) "/")
              || String.eqb (Str.take 1 (Str.drop 2 s)) "/");
      cbn [root parts]; rewrite lower_split_slash, lower_filter_parts; reflexivity.
Qed.

Lemma lower_last (l : list string) :
  List.last (map Str.lower l) "" = Str.lower (List.last l "").
Proof.
  induction l as [| x [| y l] IH]; try reflexivity.
  change (List.last (map Str.lower (x :: y :: l)) "")
    with (List.last (map Str.lower (y :: l)) "").
  rewrite IH. reflexivity.
Qed.

Lemma lower_suffix (s : string) :
  PathLib.suffix (PathLib.of_str (Str.lower s))
  = Str.lower (PathLib.suffix (PathLib.of_str s)).
Proof.
  unfold PathLib.suffix, PathLib.name. rewrite lower_of_str. cbn [parts].
  rewrite lower_last, lower_rfind_dot, lower_length.
  destruct (Str.rfind "." (List.last (parts (PathLib.of_str s)) "")) as [i |];
    [| reflexivity].
  destruct ((0 <? i)%nat && (i <? _)%nat); [apply lower_drop | reflexivity].
Qed.

Lemma is_ascii_lower (s : string) : Str.is_ascii (Str.lower s) = Str.is_ascii s.
Proof.
  induction s as [| c s IH]; [reflexivity |].
  cbn [Str.lower Str.is_ascii]. rewrite IH. f_equal.
  unfold Str.lower_ascii.
  destruct ((65 <=? nat_of_ascii c)%nat && (nat_of_ascii c <=? 90)%nat) eqn:Hc;
    [| reflexivity].
  apply andb_true_iff in Hc as [H1 H2].
  apply Nat.leb_le in H1. apply Nat.leb_le in H2.
  rewrite nat_ascii_embedding by lia.
  transitivity true; [| symmetry]; apply Nat.ltb_lt; lia.
Qed.

Lemma is_ascii_drop (n : nat) (s : string) :
  Str.is_ascii s = true -> Str.is_ascii (Str.drop n s) = true.
Proof.
  revert s. induction n as [| n IH]; intros [| c s] H; try exact H.
  cbn [Str.drop]. apply IH. cbn [Str.is_ascii] in H.
  apply andb_true_iff in H as [_ H]. exact H.
Qed.

Lemma is_ascii_split (c : ascii) (s : string) :
  Str.is_ascii s = true ->
  Forall (fun x => Str.is_ascii x = true) (Str.split c s).
Proof.
  induction s as [| a s IH]; intros H; [repeat constructor |].
  cbn [Str.is_ascii] in H. apply andb_true_iff in H as [Ha Hs].
  specialize (IH Hs). cbn [Str.split]. destruct (Ascii.eqb a c).
  - constructor; [reflexivity | exact IH].
  - destruct (Str.split c s) as [| h r].
    + repeat constructor. cbn [Str.is_ascii]. rewrite Ha. reflexivity.
    + inversion IH as [| ? ? Hh Hr]; subst. constructor; [| exact Hr].
      cbn [Str.is_ascii]. rewrite Ha, Hh. reflexivity.
Qed.

Lemma is_ascii_suffix (s : string) :
  Str.is_ascii s = true ->
  Str.is_ascii (PathLib.suffix (PathLib.of_str s)) = true.
Proof.
  intros Hs.
  assert (Hn : Str.is_ascii (PathLib.name (PathLib.of_str s)) = true).
  { unfold PathLib.name, PathLib.of_str.
    assert (Hrest : Str.is_ascii (snd (PathLib.splitroot s)) = true).
    { unfold PathLib.splitroot.
      destruct (negb (String.eqb (Str.take 1 s) "/")); [exact Hs |].
      destruct (negb (String.eqb (Str.take 1 (Str.drop 1 s)) "/")
                || String.eqb (Str.take 1 (Str.drop 2 s)) "/");
        apply is_ascii_drop, Hs. }
    destruct (PathLib.splitroot s) as [r rest]. cbn [snd] in Hrest. cbn [parts].
    assert (H : Forall (fun x => Str.is_ascii x = true)
                  (List.filter PathLib.keep_part (Str.split "/" rest))).
    { apply List.Forall_forall. intros x Hx. apply filter_In in Hx as [Hx _].
      pose proof (is_ascii_split "/" rest Hrest) as Hall.
      rewrite List.Forall_forall in Hall. apply Hall, Hx. }
    induction H as [| x [| y l] Hx Hl IH]; try reflexivity; [exact Hx |].
    exact IH. }
  unfold PathLib.suffix.
  destruct (Str.rfind "." (PathLib.name (PathLib.of_str s))) as [i |];
    [| reflexivity].
  destruct ((0 <? i)%nat && (i <? _)%nat); [| reflexivity].
  apply is_ascii_drop, Hn.
Qed.

(** On a file name in ASCII the extension is lowered letter by letter. *)
Lemma safe_ext_ascii (E : Env) (f : string) :
  Str.is_ascii f = true ->
  _safe_ext E f = PathLib.suffix (PathLib.of_str (Str.lower f)).
Proof.
  intros Hf. unfold _safe_ext, py_lower.
  rewrite (is_ascii_suffix f Hf). symmetry. apply lower_suffix.
Qed.

(** X9.  On file names in ASCII the extension check does not see letter
    case: two such names that differ only in the case of their letters have
    the same [_safe_ext], so the endpoints accept both or refuse both; and
    [_safe_ext] is itself in lower case.  (Outside ASCII the lowering is the
    work of the Unicode tables, of which nothing is assumed here.) *)
Theorem safe_ext_case_insensitive (E : Env) (f1 f2 : string) :
  Str.is_ascii f1 = true ->
  Str.is_ascii f2 = true ->
  Str.lower f1 = Str.lower f2 ->
  _safe_ext E f1 = _safe_ext E f2
  /\ allowed_ext (_safe_ext E f1) = allowed_ext (_safe_ext E f2)
  /\ Str.lower (_safe_ext E f1) = _safe_ext E f1.
Proof.
  intros H1 H2 H.
  assert (Heq : _safe_ext E f1 = _safe_ext E f2).
  { rewrite (safe_ext_ascii E f1 H1), (safe_ext_ascii E f2 H2), H. reflexivity. }
  split; [exact Heq |]. split; [rewrite Heq; reflexivity |].
  rewrite (safe_ext_ascii E f1 H1), lower_suffix. apply lower_idem.
Qed.

Lemma safe_ext_case_insensitive_witness :
  _safe_ext Sample.env0 "Slides/Deck.PpTx" = _safe_ext Sample.env0 "slides/deck.pptx"
  /\ allowed_ext (_safe_ext Sample.env0 "Slides/Deck.PpTx") = true.
Proof.
  destruct (safe_ext_case_insensitive Sample.env0
              "Slides/Deck.PpTx" "slides/deck.pptx") as (Heq & _ & _);
    [reflexivity | reflexivity | reflexivity |].
  split; [exact Heq | reflexivity].
Defined.

Lemma mem_take (c : ascii) (n : nat) (s : string) :
  Str.mem c s = false -> Str.mem c (Str.take n s) = false.
Proof.
  revert s. induction n as [| n IH]; intros [| a s] H; try reflexivity.
  cbn [Str.mem Str.take] in *. apply orb_false_iff in H as [Ha Hs].
  rewrite Ha, (IH s Hs). reflexivity.
Qed.

Lemma split_pieces (c : ascii) (s : string) :
  Forall (fun x => Str.mem c x = false) (Str.split c s).
Proof.
  induction s as [| a s IH]; [repeat constructor |].
  cbn [Str.split]. destruct (Ascii.eqb a c) eqn:Ha.
  - constructor; [reflexivity | exact IH].
  - destruct (Str.split c s) as [| h r].
    + repeat constructor. cbn [Str.mem]. rewrite Ha. reflexivity.
    + inversion IH as [| ? ? Hh Hr]; subst. constructor; [| exact Hr].
      cbn [Str.mem]. rewrite Ha, Hh. reflexivity.
Qed.

Lemma name_no_slash (s : string) :
  Str.mem "/" (PathLib.name (PathLib.of_str s)) = false.
Proof.
  unfold PathLib.name, PathLib.of_str.
  destruct (PathLib.splitroot s) as [r rest]. cbn [parts].
  assert (H : Forall (fun x => Str.mem "/" x = false)
                (List.filter PathLib.keep_part (Str.split "/" rest))).
  { apply List.Forall_forall. intros x Hx. apply filter_In in Hx as [Hx _].
    pose proof (split_pieces "/" rest) as Hall.
    rewrite List.Forall_forall in Hall. apply Hall, Hx. }
  induction H as [| x [| y l] Hx Hl IH]; try reflexivity; [exact Hx |].
  exact IH.
Qed.

Lemma stem_suffix_name (p : Path) :
  PathLib.stem p +:+ PathLib.suffix p = PathLib.name p.
Proof.
  unfold PathLib.stem, PathLib.suffix.
  destruct (Str.rfind "." (PathLib.name p)) as [i |]; [| apply append_nil_r].
  destruct ((0 <? i)%nat && (i <? _)%nat); [| apply append_nil_r].
  generalize (PathLib.name p). clear p. intros n. revert n.
  induction i as [| i IH]; intros [| a n]; try reflexivity.
  cbn [Str.take Str.drop]. rewrite append_cons, IH. reflexivity.
Qed.

(** X10.  The name given to the converted file is the base name of the
    uploaded file name with its last suffix replaced by [.pdf]: whatever
    directories the client put in the name are dropped, so it never holds a
    slash. *)
Theorem download_name_is_base_name (fname : string) :
  let p := PathLib.of_str fname in
  Str.mem "/" (PathLib.stem p +:+ ".pdf") = false
  /\ PathLib.stem p +:+ PathLib.suffix p = PathLib.name p
  /\ Str.mem "/" (PathLib.name p) = false.
Proof.
  cbv zeta. pose proof (name_no_slash fname) as Hn.
  split; [| split; [apply stem_suffix_name | exact Hn]].
  rewrite mem_append. cbn [Str.mem Ascii.eqb Bool.eqb orb].
  rewrite orb_false_r. unfold PathLib.stem.
  destruct (Str.rfind "." _) as [i |]; [| exact Hn].
  destruct ((0 <? i)%nat && (i <? _)%nat); [apply mem_take, Hn | exact Hn].
Qed.

(** ** The health check *)

Section Health.

Context (E : Env).

(** The locator against the candidates of section 4.1, for use below. *)
Lemma resolve_by_candidates w :
  resolve_libreoffice_path E w
  = (match Spec.first_match (Spec.locator_candidates E w) with
     | Some p => inr p
     | None => inl (FileNotFoundError lo_not_found)
     end, w).
Proof.
  pose proof (locator_after_env E w) as Hafter.
  unfold resolve_libreoffice_path, Spec.locator_candidates,
    Spec.accepted_if_exists.
  cbn [Spec.first_match] in Hafter |- *.
  destruct (py_or _ _) as [s |]; [| exact Hafter].
  destruct (Str.truthy s); [| exact Hafter].
  rewrite (bind_ok _ _ _ _ _ (path_exists_on_disk (PathLib.of_str s) w)).
  cbn [andb]. destruct (on_disk w (PathLib.of_str s)); [reflexivity | exact Hafter].
Qed.






End Health.


(** ** The multipart envelope *)

Lemma append_assoc (s t u : string) : (s +:+ t) +:+ u = s +:+ (t +:+ u).
Proof.
  induction s as [| a s IH]; [reflexivity |].
  rewrite !append_cons, IH. reflexivity.
Qed.

(** X12.  [_build_multipart_file] never fails and draws one identifier.
    The boundary it announces in the content type, 45 characters long, is
    the one that delimits the body: the body opens with the delimiter line,
    carries [content] unchanged after the blank line that ends the part
    headers, and closes with the closing delimiter; its length exceeds that
    of [content] by a fixed overhead and the lengths of the three names. *)
Theorem multipart_envelope
    (E : Env) (field_name fname content content_type : string) (w : World) :
  let boundary := "----pptx2pdf-" +:+ Str.uuid_hex (urandom E (uuid_ctr w)) in
  let part_headers :=
    "Content-Disposition: form-data; name=" +:+ dquote +:+ field_name +:+ dquote
    +:+ "; filename=" +:+ dquote +:+ fname +:+ dquote +:+ crlf
    +:+ "Content-Type: " +:+ content_type in
  let body :=
    ("--" +:+ boundary +:+ crlf) +:+ part_headers +:+ (crlf +:+ crlf)
    +:+ content +:+ (crlf +:+ "--" +:+ boundary +:+ "--" +:+ crlf) in
  _build_multipart_file E field_name fname content content_type w
  = (inr (body, "multipart/form-data; boundary=" +:+ boundary), next_uuid w)
  /\ String.length boundary = 45%nat
  /\ String.length body
     = (String.length content + String.length field_name + String.length fname
        + String.length content_type + 174)%nat.
Proof.
  cbv zeta. split; [| split].
  - unfold _build_multipart_file. rewrite (bind_ok _ _ _ _ _ (uuid4_hex_run E w)).
    unfold ret, envelope. rewrite !append_assoc. reflexivity.
  - rewrite length_append, uuid_hex_length. reflexivity.
  - rewrite !length_append, uuid_hex_length. cbn [String.length crlf dquote].
    lia.
Qed.

(** ** What a conversion does to the world *)

Lemma on_disk_false (w : World) (p : Path) :
  on_disk w p = false -> fs w !! PathLib.str p = None.
Proof. unfold on_disk. destruct (fs w !! PathLib.str p); [discriminate | auto]. Qed.

Lemma convert_trace_shape
    (E : Env) (inp out : Path) (w w' : World) (r : exn + Path) :
  convert_pptx_to_pdf E inp out w = (r, w') ->
  exists mk sp,
    trace w' = trace w ++ mk ++ sp
    /\ (mk = [] \/ (mk = [EvMkdir (PathLib.str out)] /\ on_disk w out = false))
    /\ (sp = [] \/ exists lo, sp = [EvSpawn (convert_command lo out inp)])
    /\ (sp = [] -> exists e, r = inl e)
    /\ background w' = background w
    /\ uuid_ctr w' = uuid_ctr w.
Proof.
  rewrite convert_pptx_to_pdf_split. unfold run_engine.
  rewrite !bind_assoc, (bind_ok _ _ _ _ _ (path_exists_on_disk out w)).
  assert (Hgo : forall w1 mk,
    trace w1 = trace w ++ mk ->
    background w1 = background w -> uuid_ctr w1 = uuid_ctr w ->
    (mk = [] \/ (mk = [EvMkdir (PathLib.str out)] /\ on_disk w out = false)) ->
    bind (bind (resolve_libreoffice_path E)
            (fun lo => subprocess_run E (convert_command lo out inp)))
         (fun _ => check_output inp out) w1 = (r, w') ->
    exists mk sp,
      trace w' = trace w ++ mk ++ sp
      /\ (mk = [] \/ (mk = [EvMkdir (PathLib.str out)] /\ on_disk w out = false))
      /\ (sp = [] \/ exists lo, sp = [EvSpawn (convert_command lo out inp)])
      /\ (sp = [] -> exists e, r = inl e)
      /\ background w' = background w
      /\ uuid_ctr w' = uuid_ctr w).
  { intros w1 mk Ht Hb Hu Hmk H. rewrite bind_assoc in H.
    unfold bind at 1 in H. rewrite resolve_by_candidates in H.
    destruct (Spec.first_match (Spec.locator_candidates E w1)) as [lo |].
    - unfold bind at 1, subprocess_run in H.
      destruct (run_process E (convert_command lo out inp) (fs w1)) as [[e |] f].
      + injection H as <- <-. exists mk, [EvSpawn (convert_command lo out inp)].
        cbn [with_fs trace background uuid_ctr]. rewrite Ht, <- app_assoc.
        repeat split; eauto; discriminate.
      + rewrite check_output_result in H. injection H as <- <-.
        exists mk, [EvSpawn (convert_command lo out inp)].
        cbn [with_fs trace background uuid_ctr]. rewrite Ht, <- app_assoc.
        repeat split; eauto; discriminate.
    - injection H as <- <-. exists mk, []. rewrite app_nil_r.
      repeat split; eauto. }
  destruct (on_disk w out) eqn:Hd; cbn [negb]; rewrite bind_assoc.
  - rewrite bind_ret. intros H.
    apply (Hgo w []); auto. symmetry. apply app_nil_r.
  - unfold bind at 1, path_mkdir. rewrite (on_disk_false w out Hd).
    destruct (mkdir_err E (PathLib.str out)) as [e |].
    + intros H. injection H as <- <-. exists [], []. cbn [app].
      rewrite app_nil_r. repeat split; eauto.
    + intros H. apply (Hgo _ [EvMkdir (PathLib.str out)]) in H; auto.
Qed.

(** X13.  What [convert_pptx_to_pdf] does, step by step.  When the output
    directory is absent and cannot be made, the conversion fails with the
    error of [mkdir] and the world is untouched.  Otherwise the executable is
    looked for, by [resolve_libreoffice_path], in the world that holds the
    directory: when none is found the conversion fails with the locator's
    error and nothing else has happened; when [lo] is found the engine is
    run exactly once, with the command line built from [lo], the output
    directory and the input path, and the world is what that run leaves.  A
    failing run fails the conversion, a run that returns hands over to the
    check of the expected file.  The background queue and the random source
    are left alone throughout. *)
Theorem conversion_effects
    (E : Env) (inp out : Path) (w w' : World) (r : exn + Path) :
  convert_pptx_to_pdf E inp out w = (r, w') ->
  let wm := with_output_dir w out in
  background w' = background w
  /\ uuid_ctr w' = uuid_ctr w
  /\ match (if on_disk w out then None else mkdir_err E (PathLib.str out)) with
     | Some e => r = inl e /\ w' = w
     | None =>
         match resolve_libreoffice_path E wm with
         | (inl e, _) => r = inl e /\ w' = wm
         | (inr lo, _) =>
             let command := convert_command lo out inp in
             let ran := run_process E command (fs wm) in
             w' = with_fs wm (snd ran) [EvSpawn command]
             /\ match fst ran with
                | Some e => r = inl e
                | None => check_output inp out w' = (r, w')
                end
         end
     end.
Proof.
  intros H wm.
  destruct (convert_trace_shape E inp out w w' r H)
    as (mk & sp & _ & _ & _ & _ & Hb & Hu).
  split; [exact Hb |]. split; [exact Hu |]. clear Hb Hu mk sp.
  assert (Hgo : forall w1,
    bind (bind (resolve_libreoffice_path E)
            (fun lo => subprocess_run E (convert_command lo out inp)))
         (fun _ => check_output inp out) w1 = (r, w') ->
    match resolve_libreoffice_path E w1 with
    | (inl e, _) => r = inl e /\ w' = w1
    | (inr lo, _) =>
        let command := convert_command lo out inp in
        let ran := run_process E command (fs w1) in
        w' = with_fs w1 (snd ran) [EvSpawn command]
        /\ match fst ran with
           | Some e => r = inl e
           | None => check_output inp out w' = (r, w')
           end
    end).
  { intros w1 H1. rewrite bind_assoc in H1. unfold bind at 1 in H1.
    rewrite resolve_by_candidates in H1 |- *.
    destruct (Spec.first_match (Spec.locator_candidates E w1)) as [lo |].
    - unfold bind at 1, subprocess_run in H1. cbv zeta.
      destruct (run_process E (convert_command lo out inp) (fs w1)) as [[e |] f];
        cbn [fst snd].
      + injection H1 as <- <-. split; reflexivity.
      + pose proof H1 as H2. rewrite check_output_result in H2.
        injection H2 as _ <-. split; [reflexivity | exact H1].
    - injection H1 as <- <-. split; reflexivity. }
  subst wm. unfold with_output_dir.
  rewrite convert_pptx_to_pdf_split in H. unfold run_engine in H.
  rewrite !bind_assoc, (bind_ok _ _ _ _ _ (path_exists_on_disk out w)) in H.
  destruct (on_disk w out) eqn:Hd; cbn [negb] in H; rewrite bind_assoc in H.
  - rewrite bind_ret in H. apply Hgo, H.
  - unfold bind at 1, path_mkdir in H. rewrite (on_disk_false w out Hd) in H.
    destruct (mkdir_err E (PathLib.str out)) as [e |].
    + injection H as <- <-. split; reflexivity.
    + apply Hgo, H.
Qed.

Lemma conversion_effects_witness :
  trace (snd (convert_pptx_to_pdf Sample.env0 Sample.stored_upload
                (PathLib.of_str "/srv/app/data/fresh") Sample.world1))
  = [EvMkdir "/srv/app/data/fresh";
     EvSpawn ["/usr/bin/soffice"; "--headless"; "--nologo"; "--nofirststartwizard";
              "--nolockcheck"; "--norestore"; "--convert-to"; "pdf";
              "--outdir"; "/srv/app/data/fresh";
              "/srv/app/data/uploads/00ff.pptx"]].
Proof.
  destruct (convert_pptx_to_pdf Sample.env0 Sample.stored_upload
              (PathLib.of_str "/srv/app/data/fresh") Sample.world1)
    as [r w'] eqn:Hrun.
  destruct (conversion_effects Sample.env0 Sample.stored_upload
              (PathLib.of_str "/srv/app/data/fresh") Sample.world1 w' r Hrun)
    as (_ & _ & H).
  vm_compute in H. destruct H as [-> _]. reflexivity.
Defined.

(** ** The queue of background tasks *)

Section Queue.

Context (E : Env).

Lemma write_upload_frame p c w r w' :
  write_upload E p c w = (r, w') -> background w' = background w.
Proof.
  unfold write_upload. intros H.
  destruct (fs w !! PathLib.str p) as [[| c0] |];
    try (injection H as _ <-; reflexivity);
    (destruct (open_wb_err E (PathLib.str p)); [injection H as _ <-; reflexivity |]);
    (destruct (copy_err E (PathLib.str p)); injection H as _ <-; reflexivity).
Qed.

Lemma convert_frame inp out w r w' :
  convert_pptx_to_pdf E inp out w = (r, w') -> background w' = background w.
Proof.
  intros H. destruct (convert_trace_shape E inp out w w' r H)
    as (mk & sp & _ & _ & _ & _ & Hb & _). exact Hb.
Qed.

Lemma cleanup_frame ps w r w' :
  _cleanup_paths E ps w = (r, w') -> background w' = background w.
Proof.
  rewrite cleanup_paths_fold. intros H. injection H as _ <-.
  apply fold_unlink_frame.
Qed.

Lemma post_for_parsing_frame pdf dn url params form w r w' :
  post_for_parsing E pdf dn url params form w = (r, w') ->
  background w' = background w.
Proof.
  unfold post_for_parsing, path_open_rb, bind, client_post, ret.
  destruct (path_read_bytes pdf w) as [[e | c] w1] eqn:H1;
    apply path_read_bytes_world in H1 as ->;
    [intros H; injection H as _ <-; reflexivity |].
  destruct (http_post E (trace w) _) as [e | resp];
    [intros H; injection H as _ <-; reflexivity |].
  destruct (400 <=? status_code resp)%Z;
    [| intros H; injection H as _ <-; reflexivity].
  match goal with
  | |- context [path_read_bytes pdf ?w0] =>
      destruct (path_read_bytes pdf w0) as [[e | c'] w1] eqn:H1;
      apply path_read_bytes_world in H1 as ->
  end; [intros H; injection H as _ <-; reflexivity |].
  match goal with
  | |- context [http_post E ?t ?rq] =>
      destruct (http_post E t rq) as [e | resp2]
  end; [intros H; injection H as _ <-; reflexivity |].
  destruct ((200 <=? status_code resp2)%Z && (status_code resp2 <? 300)%Z);
    intros H; injection H as _ <-; reflexivity.
Qed.

(** The proxy step queues the cleanup of both artifacts when it answers.
    When it fails the queue is as it was, but for one case: the task was
    queued and the response could then not be built. *)
Lemma proxy_step_queue fname inp pdf a w r w' :
  proxy_step E fname inp pdf a w = (r, w') ->
  match r with
  | inr _ => background w' = background w ++ [[inp; pdf]]
  | inl e =>
      background w' = background w
      \/ (background w' = background w ++ [[inp; pdf]]
          /\ exists resp payload e0,
               json_loads E (text resp) = Some payload
               /\ render_json E payload = Some e0
               /\ e = parser_failure e0)
  end.
Proof.
  intros H.
  destruct (Spec.has_scheme
              (py_or_else (py_or (parser_url a) (x_parser_url a))
                 (_effective_parser_url E))) eqn:Hs.
  2:{ rewrite (proxy_step_bad_url E _ _ _ _ _ Hs) in H. injection H as <- <-.
      left. reflexivity. }
  unfold proxy_step in H. rewrite (bind_ok _ _ _ _ _ (resolve_ok E _ _ w Hs)) in H.
  unfold _parser_query_params in H.
  destruct (_parser_query_params_from (query_items a) ∅) as [e | qp].
  { injection H as <- <-. left. reflexivity. }
  rewrite bind_ret in H.
  match type of H with
  | try_except (bind ?post _) _ _ = _ =>
      destruct (post w) as [[e | resp] w1] eqn:Hp
  end; pose proof (post_for_parsing_frame _ _ _ _ _ _ _ _ Hp) as Hb.
  - erewrite try_except_fail in H by (apply bind_fail; exact Hp).
    destruct (cleanup_returns E [inp; pdf] w1) as [w2 Hc].
    pose proof (cleanup_frame _ _ _ _ Hc) as Hb2.
    destruct e; rewrite (bind_ok _ _ _ _ _ Hc) in H; injection H as <- <-;
      left; rewrite Hb2, Hb; reflexivity.
  - destruct (json_loads E (text resp)) as [payload |] eqn:Hj.
    + destruct (render_json E payload) as [e0 |] eqn:Hr.
      * erewrite try_except_fail in H.
        2:{ rewrite (bind_ok _ _ _ _ _ Hp). rewrite Hj, bind_ret.
            unfold new_JSONResponse. rewrite Hr. reflexivity. }
        destruct (cleanup_returns E [inp; pdf]
                    (mkWorld (fs w1) (background w1 ++ [[inp; pdf]]) (uuid_ctr w1)
                       (trace w1))) as [w2 Hc].
        pose proof (cleanup_frame _ _ _ _ Hc) as Hb2. cbn [background] in Hb2.
        assert (He : r = inl (parser_failure e0) /\ w' = w2).
        { destruct e0; cbn [parser_failure]; cbv beta iota in H;
            rewrite (bind_ok _ _ _ _ _ Hc) in H;
            injection H as <- <-; split; reflexivity. }
        destruct He as [-> ->]. right. split; [rewrite Hb2, Hb; reflexivity |].
        exists resp, payload, e0. auto.
      * erewrite try_except_ok in H.
        2:{ rewrite (bind_ok _ _ _ _ _ Hp). rewrite Hj, bind_ret.
            unfold new_JSONResponse. rewrite Hr. reflexivity. }
        injection H as <- <-. cbn [background]. rewrite Hb. reflexivity.
    + erewrite try_except_fail in H
        by (rewrite (bind_ok _ _ _ _ _ Hp); rewrite Hj; reflexivity).
      destruct (cleanup_returns E [inp; pdf] w1) as [w2 Hc].
      pose proof (cleanup_frame _ _ _ _ Hc) as Hb2.
      cbv beta iota in H. rewrite (bind_ok _ _ _ _ _ Hc) in H.
      injection H as <- <-. left. rewrite Hb2, Hb. reflexivity.
Qed.

End Queue.

(** The checks an endpoint opens with either refuse the request, leaving
    the world as it is, or let a named upload with an allowed suffix in. *)
Ltac unchanged_queue :=
  first [ symmetry; apply app_nil_r | left; reflexivity ].

Ltac pass_checks E H file fname bytes Ht Hext :=
  destruct file as [[fname |] bytes];
  [ destruct (Str.truthy fname) eqn:Ht;
    [ destruct (allowed_ext (_safe_ext E fname)) eqn:Hext;
      [ | cbn [filename py_truthy from_option id] in H;
          rewrite Ht, Hext in H; injection H as <- <-; unchanged_queue ]
    | cbn [filename py_truthy] in H; rewrite Ht in H; injection H as <- <-;
      unchanged_queue ]
  | injection H as <- <-; unchanged_queue ].

(** X14.  An endpoint that answers has added exactly one task to the
    background queue: the cleanup of the stored upload and of the converted
    file.  [convert] and [convert_multipart] leave the queue as it was when
    they fail.  So does [convert_and_parse], with one exception: the
    destination's body was decoded, the task was queued, and the payload
    could then not be rendered; the request fails with the task queued. *)
Theorem cleanup_task_queued
    (E : Env) (file : UploadFile) (a : ParseArgs) (w w' : World)
    (r : exn + response) :
  (convert E file w = (r, w') \/ convert_multipart E file w = (r, w') ->
     background w'
     = background w
       ++ match r with inr _ => [cleanup_task E w file] | inl _ => [] end)
  /\ (convert_and_parse E file a w = (r, w') ->
        match r with
        | inr _ => background w' = background w ++ [cleanup_task E w file]
        | inl e =>
            background w' = background w
            \/ (background w' = background w ++ [cleanup_task E w file]
                /\ exists resp payload e0,
                     json_loads E (text resp) = Some payload
                     /\ render_json E payload = Some e0
                     /\ e = parser_failure e0)
        end).
Proof.
  unfold cleanup_task. split; [intros [H | H] | intros H].
  - (* convert *)
    unfold convert in H. pass_checks E H file fname bytes Ht Hext.
    fold (convert E (mkUpload (Some fname) bytes)) in H.
    rewrite convert_after_checks in H by assumption.
    cbn [filename from_option id].
    destruct (write_upload E (upload_path E w fname) bytes (next_uuid w))
      as [[e | []] w2] eqn:Hw; pose proof (write_upload_frame E _ _ _ _ _ Hw) as Hb2.
    { erewrite bind_fail in H by (rewrite (try_except_fail _ _ _ _ _ Hw); reflexivity).
      injection H as <- <-. rewrite Hb2. symmetry. apply app_nil_r. }
    rewrite (bind_ok _ _ _ _ _ (try_except_ok _ _ _ _ _ Hw)) in H.
    destruct (convert_pptx_to_pdf E (upload_path E w fname) (OUTPUT_DIR E) w2)
      as [[e | pdf] w3] eqn:Hc; pose proof (convert_frame E _ _ _ _ _ Hc) as Hb3.
    + pose proof (cleanup_paths_fold E [upload_path E w fname] w3) as Hcl.
      match type of H with
      | bind ?c _ _ = _ =>
          assert (Hh : c w2
                       = (inl (HTTPException 500 (convert_failure_detail e)),
                          fold_left (after_unlink E) [upload_path E w fname] w3))
      end.
      { rewrite (try_except_fail _ _ _ _ _ Hc).
        destruct e; cbn [convert_failure_detail];
          rewrite (bind_ok _ _ _ _ _ Hcl); reflexivity. }
      rewrite (bind_fail _ _ _ _ _ Hh) in H.
      injection H as <- <-.
      rewrite app_nil_r.
      transitivity (background w3);
        [exact (proj1 (fold_unlink_frame E [upload_path E w fname] w3))
        | rewrite Hb3, Hb2; reflexivity].
    + rewrite (bind_ok _ _ _ _ _ (try_except_ok _ _ _ _ _ Hc)) in H.
      apply convert_success_inv in Hc as (_ & -> & _).
      unfold upload_path in H at 2.
      rewrite stored_paths in H by exact Hext.
      injection H as <- <-. cbn [background]. rewrite Hb3, Hb2. reflexivity.
  - (* convert_multipart *)
    unfold convert_multipart in H. pass_checks E H file fname bytes Ht Hext.
    fold (convert_multipart E (mkUpload (Some fname) bytes)) in H.
    rewrite convert_multipart_after_checks in H by assumption.
    cbn [filename from_option id].
    destruct (write_upload E (upload_path E w fname) bytes (next_uuid w))
      as [[e | []] w2] eqn:Hw; pose proof (write_upload_frame E _ _ _ _ _ Hw) as Hb2.
    { erewrite bind_fail in H by (rewrite (try_except_fail _ _ _ _ _ Hw); reflexivity).
      injection H as <- <-. rewrite Hb2. symmetry. apply app_nil_r. }
    rewrite (bind_ok _ _ _ _ _ (try_except_ok _ _ _ _ _ Hw)) in H.
    pose proof (fun w3 => cleanup_paths_fold E [upload_path E w fname] w3) as Hcl.
    destruct (convert_pptx_to_pdf E (upload_path E w fname) (OUTPUT_DIR E) w2)
      as [[e | pdf] w3] eqn:Hc; pose proof (convert_frame E _ _ _ _ _ Hc) as Hb3.
    + erewrite bind_fail in H.
      2:{ erewrite try_except_fail by (apply bind_fail; exact Hc).
          rewrite (bind_ok _ _ _ _ _ (Hcl w3)). reflexivity. }
      injection H as <- <-.
      rewrite app_nil_r.
      transitivity (background w3);
        [exact (proj1 (fold_unlink_frame E [upload_path E w fname] w3))
        | rewrite Hb3, Hb2; reflexivity].
    + destruct (path_read_bytes pdf w3) as [[e | pdf_bytes] w4] eqn:Hr;
        pose proof (path_read_bytes_world _ _ _ _ Hr) as ->.
      * erewrite bind_fail in H.
        2:{ erewrite try_except_fail
              by (rewrite (bind_ok _ _ _ _ _ Hc); apply bind_fail; exact Hr).
            rewrite (bind_ok _ _ _ _ _ (Hcl w3)). reflexivity. }
        injection H as <- <-.
        rewrite app_nil_r.
        transitivity (background w3);
          [exact (proj1 (fold_unlink_frame E [upload_path E w fname] w3))
          | rewrite Hb3, Hb2; reflexivity].
      * erewrite bind_ok in H.
        2:{ apply try_except_ok. rewrite (bind_ok _ _ _ _ _ Hc).
            rewrite (bind_ok _ _ _ _ _ Hr). reflexivity. }
        apply convert_success_inv in Hc as (_ & -> & _).
        unfold upload_path in H at 2.
        rewrite stored_paths in H by exact Hext.
        cbv beta iota in H. unfold _build_multipart_file in H.
        rewrite bind_assoc, (bind_ok _ _ _ _ _ (uuid4_hex_run E w3)), bind_ret in H.
        cbv beta iota in H.
        injection H as <- <-. cbn [background next_uuid]. rewrite Hb3, Hb2.
        reflexivity.
  - (* convert_and_parse *)
    unfold convert_and_parse in H. pass_checks E H file fname bytes Ht Hext.
    fold (convert_and_parse E (mkUpload (Some fname) bytes) a) in H.
    rewrite convert_and_parse_after_checks in H by assumption.
    cbn [filename from_option id].
    destruct (write_upload E (upload_path E w fname) bytes (next_uuid w))
      as [[e | []] w2] eqn:Hw; pose proof (write_upload_frame E _ _ _ _ _ Hw) as Hb2.
    { erewrite bind_fail in H by (rewrite (try_except_fail _ _ _ _ _ Hw); reflexivity).
      injection H as <- <-. left. exact Hb2. }
    rewrite (bind_ok _ _ _ _ _ (try_except_ok _ _ _ _ _ Hw)) in H.
    destruct (convert_pptx_to_pdf E (upload_path E w fname) (OUTPUT_DIR E) w2)
      as [[e | pdf] w3] eqn:Hc; pose proof (convert_frame E _ _ _ _ _ Hc) as Hb3.
    + pose proof (cleanup_paths_fold E [upload_path E w fname] w3) as Hcl.
      erewrite bind_fail in H.
      2:{ rewrite (try_except_fail _ _ _ _ _ Hc).
          rewrite (bind_ok _ _ _ _ _ Hcl). reflexivity. }
      injection H as <- <-. left.
      transitivity (background w3);
        [exact (proj1 (fold_unlink_frame E [upload_path E w fname] w3))
        | rewrite Hb3, Hb2; reflexivity].
    + rewrite (bind_ok _ _ _ _ _ (try_except_ok _ _ _ _ _ Hc)) in H.
      apply convert_success_inv in Hc as (_ & -> & _).
      apply proxy_step_queue in H.
      assert (Hpaths :
        background w3
        ++ [[upload_path E w fname;
             expected_pdf (upload_path E w fname) (OUTPUT_DIR E)]]
        = background w
          ++ [[upload_path E w fname;
               OUTPUT_DIR E // (Str.uuid_hex (urandom E (uuid_ctr w)) +:+ ".pdf")]]).
      { rewrite Hb3, Hb2. unfold upload_path at 2.
        rewrite stored_paths by exact Hext. reflexivity. }
      destruct r as [e | resp].
      * destruct H as [H | [H Hex]].
        -- left. rewrite H, Hb3, Hb2. reflexivity.
        -- right. split; [rewrite H; exact Hpaths | exact Hex].
      * rewrite H. exact Hpaths.
Qed.

(** A conversion served by [convert_multipart] queues the cleanup; and a
    destination that answers [[NaN]] makes [convert_and_parse] fail with the
    cleanup queued. *)
Lemma cleanup_task_queued_witness :
  background (snd (convert_multipart Sample.env0 Sample.deck Sample.world0))
  = [[PathLib.of_str "/srv/app/data/uploads/000000000000000000000000deadbeef.pptx";
      PathLib.of_str "/srv/app/data/outputs/000000000000000000000000deadbeef.pdf"]]
  /\ (fst (convert_and_parse Cases.env_nan Sample.deck Sample.args0 Sample.world0)
      = inl (HTTPException 502
               "Failed to call parser: Out of range float values are not JSON compliant")
      /\ background
           (snd (convert_and_parse Cases.env_nan Sample.deck Sample.args0
                   Sample.world0))
         = [[PathLib.of_str
               "/srv/app/data/uploads/000000000000000000000000deadbeef.pptx";
             PathLib.of_str
               "/srv/app/data/outputs/000000000000000000000000deadbeef.pdf"]]).
Proof.
  split.
  - rewrite (proj1 (cleanup_task_queued Sample.env0 Sample.deck Sample.args0
               Sample.world0
               (snd (convert_multipart Sample.env0 Sample.deck Sample.world0))
               (fst (convert_multipart Sample.env0 Sample.deck Sample.world0)))).
    + vm_compute. reflexivity.
    + right. destruct (convert_multipart _ _ _). reflexivity.
  - split; vm_compute; reflexivity.
Defined.

(** ** The envelope of [convert_multipart] *)

Section Envelope.

Context (E : Env).

Lemma write_upload_ctr p c w r w' :
  write_upload E p c w = (r, w') -> uuid_ctr w' = uuid_ctr w.
Proof.
  unfold write_upload. intros H.
  destruct (fs w !! PathLib.str p) as [[| c0] |];
    try (injection H as _ <-; reflexivity);
    (destruct (open_wb_err E (PathLib.str p)); [injection H as _ <-; reflexivity |]);
    (destruct (copy_err E (PathLib.str p)); injection H as _ <-; reflexivity).
Qed.

Lemma path_read_bytes_inr p w c w' :
  path_read_bytes p w = (inr c, w') -> fs w !! PathLib.str p = Some (File c).
Proof.
  unfold path_read_bytes.
  destruct (fs w !! PathLib.str p) as [[| c0] |]; intros H; try discriminate.
  injection H as <- _. reflexivity.
Qed.

End Envelope.

(** X15.  When [convert_multipart] answers, the file part of its envelope
    holds exactly the bytes that are on disk at the converted path, under
    the field name [file]; the boundary is built from the second identifier
    the request draws, the first being the stem of the stored files. *)
Theorem multipart_carries_pdf
    (E : Env) (file : UploadFile) (w w' : World) (r : response) :
  convert_multipart E file w = (inr r, w') ->
  let boundary := "----pptx2pdf-" +:+ Str.uuid_hex (urandom E (S (uuid_ctr w))) in
  exists fname pdf_bytes,
    filename file = Some fname
    /\ fs w' !! PathLib.str
                  (OUTPUT_DIR E // (Str.uuid_hex (urandom E (uuid_ctr w)) +:+ ".pdf"))
       = Some (File pdf_bytes)
    /\ r = Response
             (envelope boundary "file"
                (PathLib.stem (PathLib.of_str fname) +:+ ".pdf")
                pdf_bytes "application/pdf")
             ("multipart/form-data; boundary=" +:+ boundary)
    /\ uuid_ctr w' = S (S (uuid_ctr w)).
Proof.
  intros H boundary. subst boundary.
  destruct file as [[fname |] bytes]; [| discriminate].
  destruct (Str.truthy fname) eqn:Ht.
  2:{ unfold convert_multipart in H. cbn [filename py_truthy] in H.
      rewrite Ht in H. discriminate. }
  destruct (allowed_ext (_safe_ext E fname)) eqn:Hext.
  2:{ unfold convert_multipart in H. cbn [filename py_truthy from_option id] in H.
      rewrite Ht, Hext in H. discriminate. }
  rewrite convert_multipart_after_checks in H by assumption.
  apply bind_inr_inv in H as ([] & w2 & Hw & H).
  apply try_except_inr_inv in Hw; [| intros; discriminate].
  pose proof (write_upload_ctr E _ _ _ _ _ Hw) as Hc2. cbn [next_uuid uuid_ctr] in Hc2.
  apply bind_inr_inv in H as ([pdf pdf_bytes] & w3 & Hc & H).
  apply try_except_inr_inv in Hc.
  2:{ intros e w4 a1 w5. apply cleanup_then_raise_inv. }
  apply bind_inr_inv in Hc as (pdf' & w4 & Hc & Hread).
  apply bind_inr_inv in Hread as (bytes' & w5 & Hread & Hret).
  injection Hret as -> -> <-.
  pose proof (path_read_bytes_world _ _ _ _ Hread) as ->.
  apply path_read_bytes_inr in Hread.
  destruct (convert_trace_shape E _ _ _ _ _ Hc) as (_ & _ & _ & _ & _ & _ & _ & Hc3).
  apply convert_success_inv in Hc as (_ & -> & _).
  unfold upload_path in Hread, H.
  rewrite stored_paths in Hread, H by exact Hext.
  cbv beta iota in H. unfold _build_multipart_file in H.
  rewrite bind_assoc, (bind_ok _ _ _ _ _ (uuid4_hex_run E _)), bind_ret in H.
  cbv beta iota in H. injection H as <- <-.
  exists fname, pdf_bytes. cbn [fs uuid_ctr filename].
  rewrite !Hc3, !Hc2. auto.
Qed.

Lemma multipart_carries_pdf_witness :
  exists fname,
    filename Sample.deck = Some fname
    /\ fst (convert_multipart Sample.env0 Sample.deck Sample.world0)
       = inr (Response
                (envelope "----pptx2pdf-000000000000000000000000deadbef0" "file"
                   (PathLib.stem (PathLib.of_str fname) +:+ ".pdf")
                   "%PDF-1.4" "application/pdf")
                "multipart/form-data; boundary=----pptx2pdf-000000000000000000000000deadbef0").
Proof.
  assert (Hrun : exists r w',
             convert_multipart Sample.env0 Sample.deck Sample.world0 = (inr r, w')).
  { eexists. eexists. vm_compute. reflexivity. }
  destruct Hrun as (r & w' & Hrun).
  destruct (multipart_carries_pdf Sample.env0 Sample.deck Sample.world0 w' r Hrun)
    as (fname & pdf_bytes & Hname & Hdisk & Hr & _).
  exists fname. split; [exact Hname |]. rewrite Hrun. cbn [fst].
  injection Hname as <-. rewrite Hr. f_equal.
  assert (Hb : pdf_bytes = "%PDF-1.4").
  { assert (Hfs : fs w' = fs (snd (convert_multipart Sample.env0 Sample.deck
                                      Sample.world0))) by (rewrite Hrun; reflexivity).
    rewrite Hfs in Hdisk. vm_compute in Hdisk. injection Hdisk as <-. reflexivity. }
  rewrite Hb. reflexivity.
Defined.

(** Cleanup on a host where the stored PDF cannot be deleted: the upload
    goes, the PDF stays, the directories stay. *)
Lemma cleanup_effect_witness :
  let w' :=
    snd (_cleanup_paths Cases.env_sticky [Sample.stored_upload; Sample.stored_pdf]
           Sample.world1) in
  fs w' !! "/srv/app/data/uploads/00ff.pptx" = None
  /\ fs w' !! "/srv/app/data/outputs/00ff.pdf" = Some (File "%PDF-1.4")
  /\ fs w' !! "/srv/app/data/uploads" = Some Dir.
Proof.
  cbv zeta.
  destruct (cleanup_effect Cases.env_sticky [Sample.stored_upload; Sample.stored_pdf]
              Sample.world1) as (_ & Hdir & _ & Hgone & _).
  split; [| split].
  - apply (Hgone Sample.stored_upload "PK-slides"); [left | |]; reflexivity.
  - vm_compute. reflexivity.
  - apply Hdir. reflexivity.
Defined.
